(** * Haiku integration scaffolding: module descriptors and the bfloat16 check

    A shallow embedding of
      - [haiku/_src/integration/descriptors.py]  (the descriptor registry), and
      - [haiku/_src/integration/bfloat16_test.py] (the dtype conformance check),
    followed by the properties of the two files.

    Conventions.  Python objects become inductive values; a Python exception
    becomes the left injection of a sum; the calls a function makes to the
    numeric framework and to the module library are recorded, in order, in a
    trace of events; closures are pairs of code and closure cells, the cells
    living in an explicit store. *)

From Stdlib Require Import List String Ascii ZArith Lia Bool Arith.
Import ListNotations.

Local Open Scope string_scope.
Local Open Scope list_scope.

(* ================================================================== *)
(** * Arrays, dtypes and pytrees (the numeric framework's data)       *)
(* ================================================================== *)

(** The dtypes that occur in the two files, and the other usual ones. *)
Inductive DType : Type :=
| float32 | bfloat16 | float16 | float64
| int32 | int64 | uint32 | bool_.

Definition DType_eqb (a b : DType) : bool :=
  match a, b with
  | float32, float32 | bfloat16, bfloat16 | float16, float16
  | float64, float64 | int32, int32 | int64, int64
  | uint32, uint32 | bool_, bool_ => true
  | _, _ => false
  end.

(** An n-dimensional array: its dtype, its shape, and its elements in
    row-major order, each element being the integer that encodes its bit
    pattern.  What a bit pattern means as a number is the framework's
    business and is never inspected here. *)
Record Array : Type := mkArray {
  dtype : DType;
  shape : list nat;
  data  : list Z
}.

(** A pytree: an array leaf, or a container node.  [NodeKind] is what JAX
    keeps in a tree definition; the children of a dictionary are in
    JAX's flattening order. *)
Inductive NodeKind : Type :=
| KTuple | KList | KNone
| KDict (keys : list string).

#[local] Unset Elimination Schemes.
Inductive PyTree : Type :=
| Leaf (v : Array)
| Node (kind : NodeKind) (children : list PyTree).
#[local] Set Elimination Schemes.

(** [jax.tree_leaves]: the leaves, left to right. *)
Fixpoint tree_leaves (t : PyTree) : list Array :=
  match t with
  | Leaf v => [v]
  | Node _ cs => flat_map tree_leaves cs
  end.

(** [jax.tree_map] with a pure function: same structure, mapped leaves. *)
Fixpoint tree_map (f : Array -> Array) (t : PyTree) : PyTree :=
  match t with
  | Leaf v => Leaf (f v)
  | Node k cs => Node k (map (tree_map f) cs)
  end.

(** The structure of a pytree with its leaves forgotten. *)
Fixpoint treedef (t : PyTree) : PyTree :=
  match t with
  | Leaf _ => Node KNone []
  | Node k cs => Node k (map treedef cs)
  end.

(* ================================================================== *)
(** * descriptors.py: modules and wrapping adapters                   *)
(* ================================================================== *)

(** The unroll strategies of the module library that the file refers to:
    [hk.dynamic_unroll] and [hk.static_unroll]. *)
Inductive Unroller : Type := dynamic_unroll | static_unroll.

Definition Unroller_name (u : Unroller) : string :=
  match u with
  | dynamic_unroll => "dynamic_unroll"
  | static_unroll => "static_unroll"
  end.

(** Constructor arguments of the library modules in the registry. *)
Inductive Arg : Type :=
| ABool (b : bool)
| AInt (n : Z)
| AInts (l : list Z)
| AKw (key : string) (n : Z)
| ALambdas (sources : list string).

(** Module instances.  [HkModule] and [HkResetCore] are modules of the
    library ([hk.ResetCore] keeps a core but is not a [Wrapped]); the other
    four constructors are the classes the file declares.  The attribute
    [wrapped] is assigned in [Wrapped.__init__] and nowhere else, to a
    module that exists already: an instance is a finite tree. *)
Inductive Module : Type :=
| HkModule (cls : string) (args : list Arg)
| HkResetCore (core : Module)
| IdentityCore
| Training (wrapped : Module)
| Recurrent (wrapped : Module) (unroller : option Unroller)
| ResetCoreAdapter (wrapped : Module).

(** [isinstance(module, Wrapped)]: [Training], [Recurrent] and
    [ResetCoreAdapter] are the subclasses of [Wrapped]. *)
Definition isinstance_Wrapped (module : Module) : bool :=
  match module with
  | Training _ | Recurrent _ _ | ResetCoreAdapter _ => true
  | HkModule _ _ | HkResetCore _ | IdentityCore => false
  end.

(** The attribute [module.wrapped], set by [Wrapped.__init__]. *)
Definition get_wrapped (module : Module) : option Module :=
  match module with
  | Training w | Recurrent w _ | ResetCoreAdapter w => Some w
  | HkModule _ _ | HkResetCore _ | IdentityCore => None
  end.

(** [unwrap], as the loop is written: each iteration tests
    [isinstance(module, Wrapped)] and replaces [module] by
    [module.wrapped].  [fuel] bounds the number of iterations; [None] means
    the bound was reached with the loop still running. *)
Fixpoint unwrap_while (fuel : nat) (module : Module) : option Module :=
  if isinstance_Wrapped module then
    match fuel with
    | O => None
    | S fuel' =>
        match get_wrapped module with
        | Some w => unwrap_while fuel' w
        | None => None
        end
    end
  else Some module.

(** [unwrap] by recursion on the nesting: one unfolding per iteration. *)
Fixpoint unwrap (module : Module) : Module :=
  match module with
  | Training w | Recurrent w _ | ResetCoreAdapter w => unwrap w
  | HkModule _ _ | HkResetCore _ | IdentityCore => module
  end.

(** Number of [Wrapped] layers around the terminal module. *)
Fixpoint wrap_depth (module : Module) : nat :=
  match module with
  | Training w | Recurrent w _ | ResetCoreAdapter w => S (wrap_depth w)
  | HkModule _ _ | HkResetCore _ | IdentityCore => O
  end.

(* ================================================================== *)
(** * Exceptions, events and the monad of traced, fallible calls      *)
(* ================================================================== *)

(** Python exceptions that the two files can raise or let through.
    [LibraryError] is an exception that leaves a call into the module
    library or the numeric framework: it keeps the message and not the
    class, so it also stands for an exception that a function run by the
    library raises, as [g] is run by [init_fn] and [apply_fn]. *)
Inductive Exn : Type :=
| AttributeError (obj attr : string)
| TypeError (msg : string)
| IndexError (msg : string)
| ValueError (msg : string)
| SkipTest (reason : string)
| AssertionError (first second : DType)
| LibraryError (msg : string).

(** Calls into the framework, the library and the test harness. *)
Inductive Event : Type :=
| EvLocalDevices
| EvPRNGKey (seed : Z)
| EvTransform
| EvUniform (key : Array) (shape : list nat)
| EvInit (rng x : Array)
| EvAstype (v : Array) (d : DType)
| EvApply (params state : PyTree) (rng x : Array)
| EvAssertEqual (first second : DType)
| EvInitialState (core : Module) (batch_size : nat)
| EvExpandDims (x : Array) (axis : nat)
| EvUnroll (u : Unroller) (core : Module) (x : Array) (state : PyTree)
| EvCall (m : Module) (x : Array) (is_training : option bool)
| EvCoreCall (m : Module) (inputs state : PyTree).

(** A computation: the events it performed, then an exception or a value. *)
Definition M (A : Type) : Type := (list Event * (Exn + A))%type.

Definition ret {A : Type} (a : A) : M A := ([], inr a).

Definition raise {A : Type} (e : Exn) : M A := ([], inl e).

Definition tell (ev : Event) : M unit := ([ev], inr tt).

Definition bind {A B : Type} (m : M A) (k : A -> M B) : M B :=
  match m with
  | (t, inl e) => (t, inl e)
  | (t, inr a) => let (t', r) := k a in (t ++ t', r)
  end.

Declare Scope monad_scope.
Delimit Scope monad_scope with monad.
Notation "x <- c ;; k" := (bind c (fun x => k))
  (at level 61, c at next level, right associativity) : monad_scope.
Notation "' pat <- c ;; k" := (bind c (fun x => match x with pat => k end))
  (at level 61, pat pattern, c at next level, right associativity) : monad_scope.
Notation "c ;; k" := (bind c (fun _ => k))
  (at level 61, right associativity) : monad_scope.
Local Open Scope monad_scope.

Definition trace {A : Type} (m : M A) : list Event := fst m.

Definition outcome {A : Type} (m : M A) : Exn + A := snd m.

(** An exception of the library, seen from the two files. *)
Definition lift_lib {A : Type} (r : string + A) : M A :=
  match r with
  | inl msg => raise (LibraryError msg)
  | inr a => ret a
  end.

Definition lift_exn {A : Type} (r : Exn + A) : M A :=
  match r with
  | inl e => raise e
  | inr a => ret a
  end.

(** [seq[i]] on a Python sequence. *)
Definition getitem {A : Type} (seq : list A) (i : nat) : M A :=
  match nth_error seq i with
  | Some a => ret a
  | None => raise (IndexError "index out of range")
  end.

(** Map an effectful function over a list, left to right. *)
Definition mapM {A B : Type} (f : A -> M B) : list A -> M (list B) :=
  fix go (l : list A) : M (list B) :=
    match l with
    | [] => ret []
    | a :: l' => b <- f a ;; bs <- go l' ;; ret (b :: bs)
    end.

Fixpoint forM_ {A : Type} (l : list A) (f : A -> M unit) : M unit :=
  match l with
  | [] => ret tt
  | a :: l' => f a ;; forM_ l' f
  end.

(** [jax.tree_map] with an effectful function whose results are kept:
    the leaves are visited left to right. *)
Fixpoint tree_mapM (f : Array -> M Array) (t : PyTree) : M PyTree :=
  match t with
  | Leaf v => v' <- f v ;; ret (Leaf v')
  | Node k cs => cs' <- mapM (tree_mapM f) cs ;; ret (Node k cs')
  end.

(** [jax.tree_map] with a function called for its effect only. *)
Definition tree_forM (f : Array -> M unit) (t : PyTree) : M unit :=
  forM_ (tree_leaves t) f.

(* ================================================================== *)
(** * The external collaborators                                      *)
(* ================================================================== *)

(** What [hk.transform_with_state] returns: [init_fn] and [apply_fn].
    Both run the transformed function inside the library.  A call that
    does not return ends with an exception, raised by the library or by
    the transformed function; it is kept by its message, the left
    summand. *)
Record Transformed : Type := mkTransformed {
  init_fn  : Array -> Array -> string + (PyTree * PyTree);
  apply_fn : PyTree -> PyTree -> Array -> Array -> string + (PyTree * PyTree)
}.

(** The numeric framework and the module library, as far as the two files
    call them.  Nothing is assumed about these functions. *)
Record Library : Type := mkLibrary {
  (* jax.random.PRNGKey(seed) *)
  PRNGKey : Z -> Array;
  (* jax.random.uniform(key, shape) *)
  random_uniform : Array -> list nat -> Array;
  (* the conversion of one element by ndarray.astype *)
  convert : DType -> DType -> Z -> Z;
  (* core.initial_state(batch_size) of a library core *)
  hk_initial_state : Module -> nat -> string + PyTree;
  (* module(x) and module(x, is_training=...) of a library module *)
  hk_call : Module -> Array -> option bool -> string + PyTree;
  (* core(inputs, state) of a library core *)
  hk_core_call : Module -> PyTree -> PyTree -> string + PyTree;
  (* unroller(core, inputs, initial_state) *)
  hk_unroll : Unroller -> Module -> Array -> PyTree -> string + PyTree;
  (* hk.transform_with_state(g) *)
  transform_with_state : (Array -> M PyTree) -> Transformed
}.

(** A device and the process's devices; [jax.local_devices()] never
    returns an empty list. *)
Record Device : Type := mkDevice { platform : string }.

Record Env : Type := mkEnv {
  first_device : Device;
  other_devices : list Device
}.

Definition local_devices (env : Env) : M (list Device) :=
  tell EvLocalDevices ;; ret (first_device env :: other_devices env).

(* ================================================================== *)
(** * descriptors.py: how the declared classes are called             *)
(* ================================================================== *)

(** The bit pattern of the float32 number one. *)
Definition float32_one : Z := 1065353216.

(** [jnp.ones(shape)], of the default dtype float32. *)
Definition ones (shp : list nat) : Array :=
  mkArray float32 shp (repeat float32_one (fold_right Nat.mul 1 shp)).

(** [np.broadcast_to(True, shape)]. *)
Definition broadcast_true (shp : list nat) : Array :=
  mkArray bool_ shp (repeat 1%Z (fold_right Nat.mul 1 shp)).

(** [jnp.expand_dims(x, axis)]: a new axis of length one at [axis]. *)
Definition expand_dims (x : Array) (axis : nat) : M Array :=
  tell (EvExpandDims x axis) ;;
  if Nat.leb axis (List.length (shape x)) then
    ret (mkArray (dtype x)
                 (firstn axis (shape x) ++ 1 :: skipn axis (shape x))
                 (data x))
  else raise (ValueError "axis out of bounds").

Definition class_name (module : Module) : string :=
  match module with
  | HkModule cls _ => cls
  | HkResetCore _ => "ResetCore"
  | IdentityCore => "IdentityCore"
  | Training _ => "Training"
  | Recurrent _ _ => "Recurrent"
  | ResetCoreAdapter _ => "ResetCoreAdapter"
  end.

(** The classes of the library that derive from [hk.RNNCore]; these are
    the classes of the library whose instances have [initial_state]. *)
Definition hk_core_classes : list string :=
  [ "VanillaRNN"; "LSTM"; "GRU"; "DeepRNN";
    "Conv1DLSTM"; "Conv2DLSTM"; "Conv3DLSTM" ].

(** [hasattr(module, "initial_state")].  [IdentityCore] and
    [ResetCoreAdapter] declare the method and derive from [hk.RNNCore];
    [Training] and [Recurrent] derive from [hk.Module] only, which has no
    such method; [hk.ResetCore] is a core of the library. *)
Definition has_initial_state (module : Module) : bool :=
  match module with
  | HkModule cls _ => existsb (String.eqb cls) hk_core_classes
  | HkResetCore _ | IdentityCore | ResetCoreAdapter _ => true
  | Training _ | Recurrent _ _ => false
  end.

Section Calls.

Variable lib : Library.

(** [v.astype(d)]: same shape, every element converted. *)
Definition astype (v : Array) (d : DType) : Array :=
  mkArray d (shape v) (map (convert lib (dtype v) d) (data v)).

(** [module.initial_state(batch_size)].  [IdentityCore] and
    [ResetCoreAdapter] define the method; [Training] and [Recurrent] have
    no such attribute, and neither has a module of the library that is
    not a recurrent core; a core of the library answers for itself. *)
Fixpoint initial_state (module : Module) (batch_size : nat) : Exn + PyTree :=
  match module with
  | IdentityCore => inr (Leaf (ones [batch_size; 128; 1]))
  | ResetCoreAdapter w => initial_state w batch_size
  | HkModule _ _ | HkResetCore _ =>
      if has_initial_state module then
        match hk_initial_state lib module batch_size with
        | inl msg => inl (LibraryError msg)
        | inr s => inr s
        end
      else inl (AttributeError (class_name module) "initial_state")
  | Training _ | Recurrent _ _ =>
      inl (AttributeError (class_name module) "initial_state")
  end.

(** [core(inputs, state)] for the two cores the file declares. *)
Fixpoint core_call (module : Module) (inputs state : PyTree) : M PyTree :=
  match module with
  | IdentityCore => ret (Node KTuple [inputs; state])
  | ResetCoreAdapter w =>
      match inputs with
      | Leaf a =>
          match shape a with
          | [t; b] =>
              let resets := broadcast_true [t; b] in
              core_call w (Node KTuple [Leaf a; Leaf resets]) state
          | _ => raise (ValueError "not enough or too many values to unpack")
          end
      | Node _ _ => raise (AttributeError "inputs" "shape")
      end
  | HkModule _ _ | HkResetCore _ =>
      tell (EvCoreCall module inputs state) ;;
      lift_lib (hk_core_call lib module inputs state)
  | Training _ | Recurrent _ _ =>
      raise (TypeError "__call__() takes 2 positional arguments but 3 were given")
  end.

(** [Training.__call__]: [self.wrapped(x, is_training=True)].  Only a
    library module takes the keyword. *)
Definition Training_call (wrapped : Module) (x : Array) : M PyTree :=
  match wrapped with
  | HkModule _ _ | HkResetCore _ =>
      tell (EvCall wrapped x (Some true)) ;;
      lift_lib (hk_call lib wrapped x (Some true))
  | IdentityCore | Training _ | Recurrent _ _ | ResetCoreAdapter _ =>
      raise (TypeError "__call__() got an unexpected keyword argument 'is_training'")
  end.

(** The attribute lookup [module.initial_state], which raises
    [AttributeError] on a module without the method. *)
Definition lookup_initial_state (module : Module) : M unit :=
  if has_initial_state module then ret tt
  else raise (AttributeError (class_name module) "initial_state").

(** [Recurrent.__call__]:
<<
    initial_state = self.wrapped.initial_state(batch_size=x.shape[0])
    x = jnp.expand_dims(x, axis=0)
    return self.unroller(self.wrapped, x, initial_state)
>>
    The method [initial_state] is looked up before its argument
    [x.shape[0]] is evaluated.  Calling [None] raises [TypeError]. *)
Definition Recurrent_call (wrapped : Module) (unroller : option Unroller)
           (x : Array) : M PyTree :=
  lookup_initial_state wrapped ;;
  batch_size <- getitem (shape x) 0 ;;
  tell (EvInitialState wrapped batch_size) ;;
  initial_state <- lift_exn (initial_state wrapped batch_size) ;;
  x <- expand_dims x 0 ;;
  match unroller with
  | Some u =>
      tell (EvUnroll u wrapped x initial_state) ;;
      lift_lib (hk_unroll lib u wrapped x initial_state)
  | None => raise (TypeError "'NoneType' object is not callable")
  end.

(** [mod(x)], as [g] in the test calls the module it has created. *)
Definition call_module (module : Module) (x : Array) : M PyTree :=
  match module with
  | Training w => Training_call w x
  | Recurrent w u => Recurrent_call w u x
  | HkModule _ _ | HkResetCore _ =>
      tell (EvCall module x None) ;;
      lift_lib (hk_call lib module x None)
  | IdentityCore | ResetCoreAdapter _ =>
      raise (TypeError "__call__() missing 1 required positional argument: 'state'")
  end.

End Calls.

(* ================================================================== *)
(** * descriptors.py: descriptors, factories and the registry         *)
(* ================================================================== *)

(** A factory is a Python closure.  The lambdas written in the registry
    have no free local variable; [Lambda0 m] is such a lambda whose body
    evaluates to the module [m].  The lambda that [recurrent_factory]
    returns refers to the two variables of the call that made it,
    [create_core] and [unroller], through their closure cells. *)
Inductive Factory : Type :=
| Lambda0 (body : Module)
| RecurrentLambda (create_core_cell unroller_cell : nat).

(** The content of a closure cell. *)
Inductive CellValue : Type :=
| CFactory (f : Factory)
| CUnroller (u : option Unroller).

(** The closure cells allocated so far; a cell's address is its index. *)
Definition Store : Type := list CellValue.

Definition alloc (st : Store) (v : CellValue) : nat * Store :=
  (List.length st, st ++ [v]).

(** [class ModuleDescriptor(NamedTuple)]. *)
Record ModuleDescriptor : Type := mkModuleDescriptor {
  md_name   : string;
  md_create : Factory;
  md_shape  : list nat;
  md_dtype  : DType
}.

(** Calling a factory, in a store, gives a module and the store after the
    call.  A [Lambda0] builds its module.  The lambda of
    [recurrent_factory] reads its two cells, calls [create_core()] and
    builds [Recurrent(create_core(), unroller)]; its body assigns to no
    variable.  [fuel] bounds the depth of nested calls. *)
Fixpoint invoke (fuel : nat) (st : Store) (f : Factory)
  : option (Module * Store) :=
  match fuel with
  | O => None
  | S fuel' =>
      match f with
      | Lambda0 m => Some (m, st)
      | RecurrentLambda c u =>
          match nth_error st c, nth_error st u with
          | Some (CFactory create_core), Some (CUnroller unroller) =>
              match invoke fuel' st create_core with
              | Some (core, st') => Some (Recurrent core unroller, st')
              | None => None
              end
          | _, _ => None
          end
      end
  end.

(** A call with as much depth as the store can ask for. *)
Definition call_factory (st : Store) (f : Factory) : option (Module * Store) :=
  invoke (S (List.length st)) st f.

(** [recurrent_factory(create_core, unroller)]: the call binds its two
    parameters in fresh cells and returns the lambda over them. *)
Definition recurrent_factory (create_core : Factory)
           (unroller : option Unroller) (st : Store) : Factory * Store :=
  let (c, st1) := alloc st (CFactory create_core) in
  let (u, st2) := alloc st1 (CUnroller unroller) in
  (RecurrentLambda c u, st2).

(** ["Recurrent({})".format(name)] and
    ["Recurrent({}, {})".format(name, unroller.__name__)]. *)
Definition recurrent_name (name : string) (unroller : option Unroller) : string :=
  match unroller with
  | None => ("Recurrent(" ++ name ++ ")")%string
  | Some u => ("Recurrent(" ++ name ++ ", " ++ Unroller_name u ++ ")")%string
  end.

(** The loop of [unroll_descriptors], with [out] as accumulated so far. *)
Fixpoint unroll_loop (descriptors : list ModuleDescriptor)
         (unroller : option Unroller) (out : list ModuleDescriptor)
         (st : Store) : list ModuleDescriptor * Store :=
  match descriptors with
  | [] => (out, st)
  | mkModuleDescriptor name create shape dtype :: rest =>
      let name := recurrent_name name unroller in
      let (factory, st') := recurrent_factory create unroller st in
      unroll_loop rest unroller
                  (out ++ [mkModuleDescriptor name factory shape dtype]) st'
  end.

Definition unroll_descriptors (descriptors : list ModuleDescriptor)
           (unroller : option Unroller) (st : Store)
  : list ModuleDescriptor * Store :=
  unroll_loop descriptors unroller [] st.

Definition BATCH_SIZE : nat := 8.

Definition BATCH_MODULES : list ModuleDescriptor :=
  [ mkModuleDescriptor "BatchNorm"
      (Lambda0 (Training (HkModule "BatchNorm" [ABool true; ABool true])))
      [BATCH_SIZE; 2; 2; 3] float32;
    mkModuleDescriptor "Bias"
      (Lambda0 (HkModule "Bias" [])) [BATCH_SIZE; 3; 3; 3] float32;
    mkModuleDescriptor "Conv1D"
      (Lambda0 (HkModule "Conv1D" [AInt 3; AInt 3])) [BATCH_SIZE; 2; 2] float32;
    mkModuleDescriptor "Conv1DTranspose"
      (Lambda0 (HkModule "Conv1DTranspose" [AInt 3; AInt 3]))
      [BATCH_SIZE; 2; 2] float32;
    mkModuleDescriptor "Conv2D"
      (Lambda0 (HkModule "Conv2D" [AInt 3; AInt 3]))
      [BATCH_SIZE; 2; 2; 2] float32;
    mkModuleDescriptor "Conv2DTranspose"
      (Lambda0 (HkModule "Conv2DTranspose" [AInt 3; AInt 3]))
      [BATCH_SIZE; 2; 2; 2] float32;
    mkModuleDescriptor "Conv3D"
      (Lambda0 (HkModule "Conv3D" [AInt 3; AInt 3]))
      [BATCH_SIZE; 2; 2; 2; 2] float32;
    mkModuleDescriptor "Conv3DTranspose"
      (Lambda0 (HkModule "Conv3DTranspose" [AInt 3; AInt 3]))
      [BATCH_SIZE; 2; 2; 2; 2] float32;
    mkModuleDescriptor "Embed"
      (Lambda0 (HkModule "Embed" [AKw "vocab_size" 6; AKw "embed_dim" 12]))
      [BATCH_SIZE] int32;
    mkModuleDescriptor "Flatten"
      (Lambda0 (HkModule "Flatten" [])) [BATCH_SIZE; 3; 3; 3] float32;
    mkModuleDescriptor "InstanceNorm"
      (Lambda0 (HkModule "InstanceNorm" [ABool true; ABool true]))
      [BATCH_SIZE; 3; 2] float32;
    mkModuleDescriptor "LayerNorm"
      (Lambda0 (HkModule "LayerNorm" [AInt 1; ABool true; ABool true]))
      [BATCH_SIZE; 3; 2] float32;
    mkModuleDescriptor "SpectralNorm"
      (Lambda0 (HkModule "SpectralNorm" [])) [BATCH_SIZE; 3; 2] float32;
    mkModuleDescriptor "Linear"
      (Lambda0 (HkModule "Linear" [AInt 10])) [BATCH_SIZE; 1] float32;
    mkModuleDescriptor "Sequential"
      (Lambda0 (HkModule "Sequential" [ALambdas ["lambda x: x"]]))
      [BATCH_SIZE; 2; 2] float32;
    mkModuleDescriptor "nets.ResNet50"
      (Lambda0 (Training (HkModule "nets.ResNet50" [AInt 1000])))
      [BATCH_SIZE; 3; 3; 2] float32;
    mkModuleDescriptor "nets.MLP"
      (Lambda0 (HkModule "nets.MLP" [AInts [3; 4; 5]%Z]))
      [BATCH_SIZE; 3] float32 ].

Definition RNN_CORES : list ModuleDescriptor :=
  [ mkModuleDescriptor "ResetCore"
      (Lambda0 (ResetCoreAdapter (HkResetCore IdentityCore)))
      [BATCH_SIZE; 128] float32;
    mkModuleDescriptor "GRU"
      (Lambda0 (HkModule "GRU" [AInt 1])) [BATCH_SIZE; 128] float32;
    mkModuleDescriptor "LSTM"
      (Lambda0 (HkModule "LSTM" [AInt 1])) [BATCH_SIZE; 128] float32;
    mkModuleDescriptor "VanillaRNN"
      (Lambda0 (HkModule "VanillaRNN" [AInt 8])) [BATCH_SIZE; 128] float32 ].

(** The two calls of [unroll_descriptors] that define
    [RECURRENT_MODULES], run one after the other from the empty store. *)
Definition RECURRENT_MODULES_run : list ModuleDescriptor * Store :=
  let (dyn, st1) := unroll_descriptors RNN_CORES (Some dynamic_unroll) [] in
  let (sta, st2) := unroll_descriptors RNN_CORES (Some static_unroll) st1 in
  (dyn ++ sta, st2).

Definition RECURRENT_MODULES : list ModuleDescriptor :=
  fst RECURRENT_MODULES_run.

(** The closure cells that exist once the file has been imported. *)
Definition descriptors_store : Store := snd RECURRENT_MODULES_run.

Definition IGNORED_MODULES : list string :=
  [ "BatchApply"; "Module"; "Reshape"; "AvgPool"; "MaxPool"; "GraphNetwork";
    "EMAParamsTree"; "SNParamsTree"; "ExponentialMovingAverage";
    "DeepRNN"; "RNNCore" ].

(** The three sequences of the registry, in the order of the file. *)
Definition registry : list ModuleDescriptor :=
  BATCH_MODULES ++ RNN_CORES ++ RECURRENT_MODULES.

(** The strategies a [Recurrent] adapter can hold: none, or one of the
    library's. *)
Definition unroll_strategies : list (option Unroller) :=
  [None; Some dynamic_unroll; Some static_unroll].

(** The names that importing [descriptors.py] binds in the module, each
    with what it is bound to, in the order of the file. *)
Inductive PyValue : Type :=
| VImported (target : string)
| VClass (bases : list string)
| VFunction
| VInt (n : nat)
| VDescriptors (ds : list ModuleDescriptor)
| VSet (members : list string).

Definition descriptors_namespace : list (string * PyValue) :=
  [ ("Any", VImported "typing.Any");
    ("Callable", VImported "typing.Callable");
    ("NamedTuple", VImported "typing.NamedTuple");
    ("Union", VImported "typing.Union");
    ("hk", VImported "haiku");
    ("Shape", VImported "haiku._src.typing.Shape");
    ("DType", VImported "haiku._src.typing.DType");
    ("jnp", VImported "jax.numpy");
    ("np", VImported "numpy");
    ("Wrapped", VClass ["hk.Module"]);
    ("Training", VClass ["Wrapped"]);
    ("Recurrent", VClass ["Wrapped"]);
    ("unwrap", VFunction);
    ("ModuleDescriptor", VClass ["NamedTuple"]);
    ("BATCH_SIZE", VInt BATCH_SIZE);
    ("BATCH_MODULES", VDescriptors BATCH_MODULES);
    ("IdentityCore", VClass ["hk.RNNCore"]);
    ("ResetCoreAdapter", VClass ["Wrapped"; "hk.RNNCore"]);
    ("RNN_CORES", VDescriptors RNN_CORES);
    ("recurrent_factory", VFunction);
    ("unroll_descriptors", VFunction);
    ("RECURRENT_MODULES", VDescriptors RECURRENT_MODULES);
    ("IGNORED_MODULES", VSet IGNORED_MODULES) ].

(** [getattr(module, name)] on a module with the given bindings. *)
Fixpoint module_getattr (module_name : string)
         (ns : list (string * PyValue)) (name : string) : Exn + PyValue :=
  match ns with
  | [] => inl (AttributeError module_name name)
  | (n, v) :: ns' =>
      if String.eqb n name then inr v else module_getattr module_name ns' name
  end.

(* ================================================================== *)
(** * bfloat16_test.py: the dtype conformance check                   *)
(* ================================================================== *)

(** [self.skipTest(reason)] raises [unittest.SkipTest]. *)
Definition skipTest {A : Type} (reason : string) : M A :=
  raise (SkipTest reason).

(** [self.assertEqual(first, second)] on two dtypes. *)
Definition assertEqual (first second : DType) : M unit :=
  tell (EvAssertEqual first second) ;;
  if DType_eqb first second then ret tt
  else raise (AssertionError first second).

Section Bfloat16Test.

Variable lib : Library.

Definition PRNGKey_call (seed : Z) : M Array :=
  tell (EvPRNGKey seed) ;; ret (PRNGKey lib seed).

Definition uniform_call (key : Array) (shp : list nat) : M Array :=
  tell (EvUniform key shp) ;; ret (random_uniform lib key shp).

Definition astype_call (v : Array) (d : DType) : M Array :=
  tell (EvAstype v d) ;; ret (astype lib v d).

Definition transform_call (g : Array -> M PyTree) : M Transformed :=
  tell EvTransform ;; ret (transform_with_state lib g).

Definition init_call (T : Transformed) (rng x : Array) : M (PyTree * PyTree) :=
  tell (EvInit rng x) ;; lift_lib (init_fn T rng x).

Definition apply_call (T : Transformed) (params state : PyTree)
           (rng x : Array) : M (PyTree * PyTree) :=
  tell (EvApply params state rng x) ;; lift_lib (apply_fn T params state rng x).

(** The lambda of line 58:
    [lambda v: v.astype(test_dtype) if v.dtype == jnp.float32 else v]. *)
Definition f32_to_test_dtype (test_dtype : DType) (v : Array) : M Array :=
  if DType_eqb (dtype v) float32 then astype_call v test_dtype else ret v.

(** The inner function of line 68:
<<
    def assert_dtype(v):
      if v.dtype != jnp.int32:
        self.assertEqual(v.dtype, test_dtype)
>> *)
Definition assert_dtype_leaf (test_dtype : DType) (v : Array) : M unit :=
  if negb (DType_eqb (dtype v) int32) then assertEqual (dtype v) test_dtype
  else ret tt.

(** The body of [for _ in range(n)], with the rebinding of [state]. *)
Fixpoint apply_loop (n : nat) (T : Transformed) (test_dtype : DType)
         (params state : PyTree) (rng x : Array) : M unit :=
  match n with
  | O => ret tt
  | S n' =>
      '(y, state) <- apply_call T params state rng x ;;
      tree_forM (assert_dtype_leaf test_dtype) y ;;
      tree_forM (assert_dtype_leaf test_dtype) state ;;
      apply_loop n' T test_dtype params state rng x
  end.

(** [g] of line 45: [mod = module_fn(); return mod(x)]. *)
Definition g (module_fn : M Module) (x : Array) : M PyTree :=
  mod_ <- module_fn ;; call_module lib mod_ x.

(** [DTypeTestCase.assert_dtype]. *)
Definition assert_dtype (env : Env) (test_dtype : DType)
           (module_fn : M Module) (shp : list nat) (input_dtype : DType)
  : M unit :=
  devices <- local_devices env ;;
  device <- getitem devices 0 ;;
  if negb (String.eqb (platform device) "tpu") then
    skipTest "bfloat16 only supported on TPU"
  else if negb (DType_eqb input_dtype float32) then
    skipTest "Skipping module without float32 input"
  else
    rng <- PRNGKey_call 42 ;;
    T <- transform_call (g module_fn) ;;
    x <- uniform_call rng shp ;;
    '(params, state) <- init_call T rng x ;;
    casted <- tree_mapM (f32_to_test_dtype test_dtype)
                        (Node KTuple [params; state]) ;;
    match casted with
    | Node KTuple [params; state] =>
        x <- astype_call x test_dtype ;;
        apply_loop 2 T test_dtype params state rng x
    | _ => raise (ValueError "cannot unpack")
    end.

(** [Bfloat16Test.test_bfloat16]. *)
Definition test_bfloat16 (env : Env) (module_fn : M Module)
           (shp : list nat) (dtype : DType) : M unit :=
  assert_dtype env bfloat16 module_fn shp dtype.

End Bfloat16Test.

(** The factory of a descriptor as the test calls it: the closure is
    called in the store of the imported [descriptors] module. *)
Definition module_fn_of (st : Store) (f : Factory) : M Module :=
  match call_factory st f with
  | Some (m, _) => ret m
  | None => raise (TypeError "the factory could not be called")
  end.

(** The test on one descriptor of the registry. *)
Definition run_descriptor (lib : Library) (env : Env) (d : ModuleDescriptor)
  : M unit :=
  test_bfloat16 lib env (module_fn_of descriptors_store (md_create d))
                (md_shape d) (md_dtype d).

Section TestModule.

(** [test_utils.combined_named_parameters] is defined in
    [haiku/_src/test_utils.py]; it is taken as it comes. *)
Variable Decorator : Type.
Variable combined_named_parameters : list ModuleDescriptor -> Decorator.

(** The decorator expression of line 77,
    [test_utils.combined_named_parameters(descriptors.ALL_MODULES)],
    evaluated when the class body of [Bfloat16Test] runs: the argument is
    looked up in the [descriptors] module, then the function is called. *)
Definition Bfloat16Test_decorator : Exn + Decorator :=
  match module_getattr "haiku._src.integration.descriptors"
                       descriptors_namespace "ALL_MODULES" with
  | inl e => inl e
  | inr (VDescriptors ds) => inr (combined_named_parameters ds)
  | inr _ => inl (TypeError "not a sequence of descriptors")
  end.

End TestModule.

(** How a run of a test method is reported. *)
Inductive Report : Type :=
| Passed
| Skipped (reason : string)
| Failure (first second : DType)
| Error (e : Exn).

Definition report (r : Exn + unit) : Report :=
  match r with
  | inr _ => Passed
  | inl (SkipTest reason) => Skipped reason
  | inl (AssertionError a b) => Failure a b
  | inl e => Error e
  end.

(** A leaf passes the check of line 68 when it is int32 or of the test
    dtype. *)
Definition leaf_ok (test_dtype : DType) (v : Array) : bool :=
  DType_eqb (dtype v) int32 || DType_eqb (dtype v) test_dtype.

(* ================================================================== *)
(** * Auxiliary definitions used in the statements                    *)
(* ================================================================== *)

(** The descriptors that [unroll_descriptors] appends when the store has
    [base] cells: the [i]-th one owns the cells [base + 2i] and
    [base + 2i + 1]. *)
Fixpoint unrolled_from (base : nat) (unroller : option Unroller)
         (descriptors : list ModuleDescriptor) : list ModuleDescriptor :=
  match descriptors with
  | [] => []
  | d :: rest =>
      mkModuleDescriptor (recurrent_name (md_name d) unroller)
                         (RecurrentLambda base (S base))
                         (md_shape d) (md_dtype d)
      :: unrolled_from (S (S base)) unroller rest
  end.

(** The cells that [unroll_descriptors] allocates. *)
Definition unrolled_cells (unroller : option Unroller)
           (descriptors : list ModuleDescriptor) : Store :=
  flat_map (fun d => [CFactory (md_create d); CUnroller unroller]) descriptors.

(** The strategy held by the module that a factory builds, if the module
    is a [Recurrent] adapter. *)
Definition built_unroller (st : Store) (f : Factory)
  : option (option Unroller) :=
  match call_factory st f with
  | Some (Recurrent _ u, _) => Some u
  | _ => None
  end.

(** Follows the spec's words, for comparison with [Recurrent_call]: the
    adapter "derives the inner module's initial recurrent state for the
    given batch size, expands the input to include a synthetic time axis
    of length one, and applies either a provided unroll strategy or
    direct one-step application". *)
Definition Recurrent_call_as_specified (lib : Library) (wrapped : Module)
           (unroller : option Unroller) (x : Array) : M PyTree :=
  lookup_initial_state wrapped ;;
  batch_size <- getitem (shape x) 0 ;;
  tell (EvInitialState wrapped batch_size) ;;
  initial_state <- lift_exn (initial_state lib wrapped batch_size) ;;
  x <- expand_dims x 0 ;;
  match unroller with
  | Some u =>
      tell (EvUnroll u wrapped x initial_state) ;;
      lift_lib (hk_unroll lib u wrapped x initial_state)
  | None => core_call lib wrapped (Leaf x) initial_state
  end.

(** All events of a trace satisfy [P]. *)
Definition all_events {A : Type} (P : Event -> Prop) (m : M A) : Prop :=
  Forall P (trace m).

(** Every exception that [m] can end with satisfies [Q]. *)
Definition raises_only {A : Type} (Q : Exn -> Prop) (m : M A) : Prop :=
  forall e, outcome m = inl e -> Q e.

(** The computation [m] after the events [evs]. *)
Definition prepend {A : Type} (evs : list Event) (m : M A) : M A :=
  (evs ++ trace m, outcome m).

Definition is_apply (ev : Event) : bool :=
  match ev with EvApply _ _ _ _ => true | _ => false end.

(** The dtype assertions that a pass over the leaves [vs] makes when all
    of them hold: one for every leaf that is not int32. *)
Definition asserts_of (test_dtype : DType) (vs : list Array) : list Event :=
  map (fun v => EvAssertEqual (dtype v) test_dtype)
      (filter (fun v => negb (DType_eqb (dtype v) int32)) vs).

(** The pure counterpart of the lambda of line 58. *)
Definition cast_f32 (lib : Library) (test_dtype : DType) (v : Array) : Array :=
  if DType_eqb (dtype v) float32 then astype lib v test_dtype else v.

(** The casts that the lambda of line 58 performs on the leaves [vs]. *)
Definition casts_of (test_dtype : DType) (vs : list Array) : list Event :=
  map (fun v => EvAstype v test_dtype)
      (filter (fun v => DType_eqb (dtype v) float32) vs).

(** What the events of a run of [test_bfloat16] may be: the seed is 42,
    every cast and every assertion is about bfloat16, and the key given
    to the sampler, to [init_fn] and to [apply_fn] is the key of seed 42. *)
Definition bfloat16_event (lib : Library) (ev : Event) : Prop :=
  match ev with
  | EvPRNGKey seed => seed = 42%Z
  | EvUniform key _ => key = PRNGKey lib 42
  | EvInit rng _ => rng = PRNGKey lib 42
  | EvApply _ _ rng _ => rng = PRNGKey lib 42
  | EvAstype _ d => d = bfloat16
  | EvAssertEqual _ second => second = bfloat16
  | _ => True
  end.

(** A factory refers to cells below [bound] only, and these hold what
    the lambda of [recurrent_factory] expects: a factory and a strategy. *)
Definition factory_wf (st : Store) (bound : nat) (f : Factory) : Prop :=
  match f with
  | Lambda0 _ => True
  | RecurrentLambda c u =>
      c < bound /\ u < bound /\
      (exists create_core, nth_error st c = Some (CFactory create_core)) /\
      (exists unroller, nth_error st u = Some (CUnroller unroller))
  end.

(** Every factory kept in a cell refers to cells allocated before it. *)
Definition store_wf (st : Store) : Prop :=
  forall i f, nth_error st i = Some (CFactory f) -> factory_wf st i f.

Definition is_initial_state (ev : Event) : bool :=
  match ev with EvInitialState _ _ => true | _ => false end.

Definition is_unroll (ev : Event) : bool :=
  match ev with EvUnroll _ _ _ _ => true | _ => false end.

Definition is_init (ev : Event) : bool :=
  match ev with EvInit _ _ => true | _ => false end.

Definition is_cast_or_assert (ev : Event) : bool :=
  match ev with
  | EvAstype _ _ | EvAssertEqual _ _ => true
  | _ => false
  end.


Definition is_seed (ev : Event) : bool :=
  match ev with EvPRNGKey _ => true | _ => false end.

(** ** A small instance of the collaborators, for concrete runs *)

Definition demo_params : PyTree :=
  Node (KDict ["linear"])
       [Node (KDict ["b"; "w"])
             [Leaf (mkArray float32 [2] [0; 0]%Z);
              Leaf (mkArray float32 [1; 2] [1065353216; 1073741824]%Z)]].

Definition demo_state : PyTree :=
  Node (KDict ["counter"; "mean"])
       [Leaf (mkArray int32 [] [7]%Z);
        Leaf (mkArray float32 [2] [5; 6]%Z)].

(** A library whose applications return the input and the state they
    were given, and whose conversion truncates to the upper 16 bits. *)
Definition demo_library : Library :=
  mkLibrary
    (fun seed => mkArray uint32 [2] [0; seed]%Z)
    (fun key shp => mkArray float32 shp (repeat 0%Z (fold_right Nat.mul 1 shp)))
    (fun _ _ z => Z.shiftr z 16)
    (fun _ b => inr (Leaf (ones [b; 1])))
    (fun _ x _ => inr (Leaf x))
    (fun _ inputs state => inr (Node KTuple [inputs; state]))
    (fun _ _ x state => inr (Node KTuple [Leaf x; state]))
    (fun _ => mkTransformed
                (fun _ _ => inr (demo_params, demo_state))
                (fun _ state _ x => inr (Leaf x, state))).

(** A library that keeps float32 in what [apply_fn] returns. *)
Definition demo_library_f32 : Library :=
  mkLibrary
    (PRNGKey demo_library) (random_uniform demo_library)
    (convert demo_library) (hk_initial_state demo_library)
    (hk_call demo_library) (hk_core_call demo_library)
    (hk_unroll demo_library)
    (fun _ => mkTransformed
                (fun _ _ => inr (demo_params, demo_state))
                (fun _ state _ x => inr (Leaf (ones (shape x)), state))).

Definition tpu_env : Env := mkEnv (mkDevice "tpu") [].

Definition demo_input : Array := mkArray float32 [2; 3] [1; 2; 3; 4; 5; 6]%Z.

(* ================================================================== *)
(** * Properties                                                      *)
(* ================================================================== *)

(** ** Dtypes and pytrees *)

Lemma DType_eqb_spec (a b : DType) : reflect (a = b) (DType_eqb a b).
Proof. destruct a, b; simpl; constructor; congruence. Qed.

Lemma DType_eqb_eq (a b : DType) : DType_eqb a b = true <-> a = b.
Proof. destruct (DType_eqb_spec a b); split; congruence. Qed.

Lemma DType_eqb_neq (a b : DType) : DType_eqb a b = false <-> a <> b.
Proof. destruct (DType_eqb_spec a b); split; congruence. Qed.

(** Induction over pytrees with the hypothesis on every child. *)
Lemma PyTree_nested_ind (P : PyTree -> Prop) :
  (forall v, P (Leaf v)) ->
  (forall k cs, Forall P cs -> P (Node k cs)) ->
  forall t, P t.
Proof.
  intros HL HN.
  fix IH 1.
  intros [v | k cs].
  - apply HL.
  - apply HN.
    induction cs as [| c cs IHcs]; constructor.
    + apply IH.
    + exact IHcs.
Qed.

Lemma tree_map_leaves (f : Array -> Array) (t : PyTree) :
  tree_leaves (tree_map f t) = map f (tree_leaves t).
Proof.
  induction t as [v | k cs IH] using PyTree_nested_ind; simpl.
  - reflexivity.
  - induction IH as [| c cs Hc _ IHcs]; simpl.
    + reflexivity.
    + now rewrite map_app, Hc, IHcs.
Qed.

Lemma tree_map_treedef (f : Array -> Array) (t : PyTree) :
  treedef (tree_map f t) = treedef t.
Proof.
  induction t as [v | k cs IH] using PyTree_nested_ind; simpl.
  - reflexivity.
  - f_equal.
    induction IH as [| c cs Hc _ IHcs]; simpl.
    + reflexivity.
    + now rewrite Hc, IHcs.
Qed.

(** ** [unwrap] *)

Lemma unwrap_not_Wrapped (module : Module) :
  isinstance_Wrapped (unwrap module) = false.
Proof. induction module; simpl; auto. Qed.

(** With at least as many iterations allowed as there are layers, the
    loop ends, on the terminal module. *)
Lemma unwrap_while_enough (module : Module) :
  forall fuel, wrap_depth module <= fuel ->
               unwrap_while fuel module = Some (unwrap module).
Proof.
  induction module as [cls args | core _ | | w IH | w IH u | w IH];
    intros fuel Hfuel; simpl in *;
    try (destruct fuel; reflexivity);
    (destruct fuel as [| fuel]; [lia | simpl; apply IH; lia]).
Qed.

(** With fewer, it is still running when they are used up. *)
Lemma unwrap_while_short (module : Module) :
  forall fuel, fuel < wrap_depth module -> unwrap_while fuel module = None.
Proof.
  induction module as [cls args | core _ | | w IH | w IH u | w IH];
    intros fuel Hfuel; simpl in *; try lia;
    (destruct fuel as [| fuel]; [reflexivity | simpl; apply IH; lia]).
Qed.

(** [n] layers of [Training] around a module. *)
Lemma wrap_depth_iter_Training (n : nat) (module : Module) :
  wrap_depth (Nat.iter n Training module) = n + wrap_depth module.
Proof. induction n; simpl; auto. Qed.

(** ** Closure cells and factories *)

(** A call writes no cell. *)
Lemma invoke_store (fuel : nat) :
  forall st f m st', invoke fuel st f = Some (m, st') -> st' = st.
Proof.
  induction fuel as [| fuel IH]; intros st f m st' H; simpl in H.
  - discriminate.
  - destruct f as [body | c u].
    + now inversion H.
    + destruct (nth_error st c) as [[create_core | ?] |]; try discriminate.
      destruct (nth_error st u) as [[? | unroller] |]; try discriminate.
      destruct (invoke fuel st create_core) as [[core st1] |] eqn:E;
        try discriminate.
      inversion H; subst. eapply IH; eassumption.
Qed.

Lemma nth_error_app_left {A : Type} (l ext : list A) (i : nat) (a : A)
      (H : nth_error l i = Some a) :
  nth_error (l ++ ext) i = Some a.
Proof.
  rewrite nth_error_app1; [exact H |].
  apply nth_error_Some. congruence.
Qed.

(** A call that succeeds still succeeds, with the same module, with more
    depth allowed and with more cells allocated after those it reads. *)
Lemma invoke_extend (fuel : nat) :
  forall st f m,
    invoke fuel st f = Some (m, st) ->
    forall fuel' ext, fuel <= fuel' ->
      invoke fuel' (st ++ ext) f = Some (m, st ++ ext).
Proof.
  induction fuel as [| fuel IH]; intros st f m H fuel' ext Hle; simpl in H.
  - discriminate.
  - destruct fuel' as [| fuel']; [lia |]. simpl.
    destruct f as [body | c u].
    + now inversion H.
    + destruct (nth_error st c) as [[create_core | ?] |] eqn:Ec;
        try discriminate.
      destruct (nth_error st u) as [[? | unroller] |] eqn:Eu;
        try discriminate.
      destruct (invoke fuel st create_core) as [[core st1] |] eqn:E;
        try discriminate.
      assert (st1 = st) by (eapply invoke_store; eassumption). subst st1.
      rewrite (@nth_error_app_left _ _ ext _ _ Ec), (@nth_error_app_left _ _ ext _ _ Eu).
      rewrite (IH _ _ _ E fuel' ext) by lia.
      now inversion H.
Qed.

Lemma recurrent_factory_eq (create : Factory) (u : option Unroller)
      (st : Store) :
  recurrent_factory create u st =
  (RecurrentLambda (List.length st) (S (List.length st)),
   st ++ [CFactory create; CUnroller u]).
Proof.
  unfold recurrent_factory, alloc.
  rewrite length_app, <- app_assoc. simpl.
  now rewrite Nat.add_1_r.
Qed.

Lemma unrolled_from_length (base : nat) (u : option Unroller)
      (ds : list ModuleDescriptor) :
  List.length (unrolled_from base u ds) = List.length ds.
Proof. revert base; induction ds; intros; simpl; auto. Qed.

(** The loop, in closed form. *)
Lemma unroll_loop_eq (ds : list ModuleDescriptor) (u : option Unroller) :
  forall out st,
    unroll_loop ds u out st =
    (out ++ unrolled_from (List.length st) u ds, st ++ unrolled_cells u ds).
Proof.
  induction ds as [| [name create shp dt] ds IH]; intros out st.
  - simpl. now rewrite !app_nil_r.
  - cbn [unroll_loop]. rewrite recurrent_factory_eq, IH.
    rewrite <- !app_assoc, length_app. simpl.
    replace (List.length st + 2) with (S (S (List.length st))) by lia.
    reflexivity.
Qed.

Lemma unroll_descriptors_eq (ds : list ModuleDescriptor)
      (u : option Unroller) (st : Store) :
  unroll_descriptors ds u st =
  (unrolled_from (List.length st) u ds, st ++ unrolled_cells u ds).
Proof. unfold unroll_descriptors. now rewrite unroll_loop_eq. Qed.

Lemma unrolled_from_nth (u : option Unroller) (ds : list ModuleDescriptor) :
  forall base i d,
    nth_error ds i = Some d ->
    nth_error (unrolled_from base u ds) i =
    Some (mkModuleDescriptor (recurrent_name (md_name d) u)
                             (RecurrentLambda (base + 2 * i) (S (base + 2 * i)))
                             (md_shape d) (md_dtype d)).
Proof.
  induction ds as [| d0 ds IH]; intros base [| i] d H; simpl in *;
    try discriminate.
  - inversion H; subst. now rewrite Nat.add_0_r.
  - rewrite (IH _ _ _ H). do 3 f_equal; lia.
Qed.

Lemma unrolled_cells_nth (u : option Unroller) (ds : list ModuleDescriptor) :
  forall i d,
    nth_error ds i = Some d ->
    nth_error (unrolled_cells u ds) (2 * i) = Some (CFactory (md_create d)) /\
    nth_error (unrolled_cells u ds) (S (2 * i)) = Some (CUnroller u).
Proof.
  induction ds as [| d0 ds IH]; intros [| i] d H; simpl in *;
    try discriminate.
  - inversion H; subst. now split.
  - replace (i + S (i + 0)) with (S (2 * i)) by lia.
    apply IH, H.
Qed.

Lemma nth_error_app_right {A : Type} (l ext : list A) (i : nat) :
  nth_error (l ++ ext) (List.length l + i) = nth_error ext i.
Proof.
  rewrite nth_error_app2 by lia. f_equal. lia.
Qed.

(** The [i]-th factory that [unroll_descriptors] returns, called in the
    store that [unroll_descriptors] leaves or in any later one, builds
    the module of the [i]-th base factory and wraps it in [Recurrent]
    with the given strategy. *)
Lemma invoke_unrolled (ds : list ModuleDescriptor) (u : option Unroller)
      (st : Store) (i : nat) (d : ModuleDescriptor) (fuel : nat) (m : Module)
      (ext : Store) :
  nth_error ds i = Some d ->
  invoke fuel st (md_create d) = Some (m, st) ->
  let st' := snd (unroll_descriptors ds u st) ++ ext in
  invoke (S fuel) st'
         (RecurrentLambda (List.length st + 2 * i) (S (List.length st + 2 * i)))
  = Some (Recurrent m u, st').
Proof.
  intros Hd Hm st'. subst st'.
  rewrite unroll_descriptors_eq. cbn [snd].
  destruct (unrolled_cells_nth u ds i d Hd) as [Hc Hu].
  rewrite <- !app_assoc.
  cbn [invoke].
  rewrite nth_error_app_right, (@nth_error_app_left _ _ ext _ _ Hc).
  replace (S (List.length st + 2 * i)) with (List.length st + S (2 * i)) by lia.
  rewrite nth_error_app_right, (@nth_error_app_left _ _ ext _ _ Hu).
  rewrite (invoke_extend fuel _ _ _ Hm fuel (unrolled_cells u ds ++ ext)) by lia.
  reflexivity.
Qed.

(** ** Names of the unrolled descriptors *)

Lemma append_cancel_l (p a b : string) :
  (p ++ a)%string = (p ++ b)%string -> a = b.
Proof.
  induction p as [| c p IH]; simpl; intros H.
  - exact H.
  - inversion H. auto.
Qed.

(** For one base name, the new name determines the strategy. *)
Lemma recurrent_name_inj (name : string) (u1 u2 : option Unroller) :
  recurrent_name name u1 = recurrent_name name u2 -> u1 = u2.
Proof.
  unfold recurrent_name.
  destruct u1 as [u1 |], u2 as [u2 |]; intros H;
    apply (append_cancel_l "Recurrent(") in H;
    apply append_cancel_l in H;
    try reflexivity;
    try (destruct u1; discriminate H);
    try (destruct u2; discriminate H).
  destruct u1, u2; try reflexivity; discriminate H.
Qed.

(* ================================================================== *)
(** * The registry (descriptors.py)                                   *)
(* ================================================================== *)

Lemma unwrap_iter_Training (n : nat) (base : Module) :
  unwrap (Nat.iter n Training base) = unwrap base.
Proof. induction n; simpl; auto. Qed.

Lemma unwrap_terminal (module : Module) :
  isinstance_Wrapped module = false -> unwrap module = module.
Proof. destruct module; simpl; intros H; try reflexivity; discriminate. Qed.

(** C9.  [unwrap] terminates on every module, whatever the number of
    [Wrapped] layers around its terminal module: the loop ends after as
    many iterations as there are layers (and so with any larger bound),
    on a module that is not a [Wrapped]; [n] layers of [Training] around
    a terminal module are handled for every [n]; and the module that the
    factory of each descriptor of the registry creates is unwrapped to a
    module that is not a [Wrapped]. *)
Theorem unwrap_terminates :
  (forall module : Module,
      unwrap_while (wrap_depth module) module = Some (unwrap module) /\
      (forall fuel, wrap_depth module <= fuel ->
                    unwrap_while fuel module = Some (unwrap module)) /\
      isinstance_Wrapped (unwrap module) = false) /\
  (forall (n : nat) (base : Module),
      isinstance_Wrapped base = false ->
      unwrap_while n (Nat.iter n Training base) = Some base) /\
  Forall (fun d =>
            exists m,
              call_factory descriptors_store (md_create d)
              = Some (m, descriptors_store) /\
              unwrap_while (wrap_depth m) m = Some (unwrap m) /\
              isinstance_Wrapped (unwrap m) = false)
         registry.
Proof.
  split; [| split].
  - intros module. repeat split.
    + apply unwrap_while_enough. lia.
    + apply unwrap_while_enough.
    + apply unwrap_not_Wrapped.
  - intros n base Hbase.
    rewrite unwrap_while_enough.
    + now rewrite unwrap_iter_Training, unwrap_terminal.
    + rewrite wrap_depth_iter_Training.
      destruct base; simpl in *; try discriminate; lia.
  - unfold registry, BATCH_MODULES, RNN_CORES.
    repeat (apply Forall_cons;
            [eexists; split;
             [reflexivity
             | split; [apply unwrap_while_enough; lia
                      | apply unwrap_not_Wrapped]] |]).
    apply Forall_nil.
Qed.

(** C7.  [unroll_descriptors] returns one descriptor per base descriptor,
    in order.  The [i]-th one is named [Recurrent(<base-name>)] when no
    strategy is given and [Recurrent(<base-name>, <strategy-name>)]
    otherwise; its shape and dtype are those of the [i]-th base
    descriptor; and its factory, whenever the base factory builds a
    module [m], builds [Recurrent m] holding the strategy. *)
Theorem unroll_descriptors_spec
        (descriptors : list ModuleDescriptor) (unroller : option Unroller)
        (st : Store) :
  let out := fst (unroll_descriptors descriptors unroller st) in
  let st' := snd (unroll_descriptors descriptors unroller st) in
  List.length out = List.length descriptors /\
  forall i d,
    nth_error descriptors i = Some d ->
    exists d',
      nth_error out i = Some d' /\
      md_name d' =
        match unroller with
        | None => ("Recurrent(" ++ md_name d ++ ")")%string
        | Some u =>
            ("Recurrent(" ++ md_name d ++ ", " ++ Unroller_name u ++ ")")%string
        end /\
      md_shape d' = md_shape d /\
      md_dtype d' = md_dtype d /\
      forall fuel m,
        invoke fuel st (md_create d) = Some (m, st) ->
        invoke (S fuel) st' (md_create d') = Some (Recurrent m unroller, st').
Proof.
  intros out st'. subst out st'.
  split.
  - rewrite unroll_descriptors_eq. apply unrolled_from_length.
  - intros i d Hd.
    eexists. split.
    + rewrite unroll_descriptors_eq. cbn [fst].
      apply unrolled_from_nth, Hd.
    + cbn [md_name md_shape md_dtype md_create].
      repeat split.
      intros fuel m Hm.
      pose proof (invoke_unrolled descriptors unroller st i d fuel m [] Hd Hm)
        as H.
      cbv zeta in H. rewrite app_nil_r in H. exact H.
Qed.

(** C6.  Take two positions [i] and [j] of the sequence given to
    [unroll_descriptors], whose base factories build [mi] and [mj].  The
    two generated factories are closures over cells of their own (four
    different cells when [i <> j]); once the whole loop has run, the
    cell of each still holds its own base factory; each, called in the
    store that [unroll_descriptors] leaves, builds [Recurrent] around the
    module of its own base factory and leaves the store as it was, so
    that a call of the [j]-th after a call of the [i]-th builds the same
    module as a call of the [j]-th alone; and a descriptor built from the
    same base descriptor with another strategy, or with none, has
    another name. *)
Theorem unrolled_factories_independent
        (descriptors : list ModuleDescriptor) (unroller : option Unroller)
        (st : Store) (i j : nat) (bi bj : ModuleDescriptor)
        (fuel : nat) (mi mj : Module) :
  nth_error descriptors i = Some bi ->
  nth_error descriptors j = Some bj ->
  invoke fuel st (md_create bi) = Some (mi, st) ->
  invoke fuel st (md_create bj) = Some (mj, st) ->
  let out := fst (unroll_descriptors descriptors unroller st) in
  let st' := snd (unroll_descriptors descriptors unroller st) in
  exists di dj ci ui cj uj,
    nth_error out i = Some di /\
    nth_error out j = Some dj /\
    md_create di = RecurrentLambda ci ui /\
    md_create dj = RecurrentLambda cj uj /\
    (i <> j -> ci <> cj /\ ci <> uj /\ ui <> cj /\ ui <> uj) /\
    nth_error st' ci = Some (CFactory (md_create bi)) /\
    nth_error st' cj = Some (CFactory (md_create bj)) /\
    invoke (S fuel) st' (md_create di) = Some (Recurrent mi unroller, st') /\
    invoke (S fuel) st' (md_create dj) = Some (Recurrent mj unroller, st') /\
    (forall m1 st1,
        invoke (S fuel) st' (md_create di) = Some (m1, st1) ->
        invoke (S fuel) st1 (md_create dj) = Some (Recurrent mj unroller, st1)) /\
    (forall unroller' st2 dj',
        unroller' <> unroller ->
        nth_error (fst (unroll_descriptors descriptors unroller' st2)) j
        = Some dj' ->
        md_name dj' <> md_name dj).
Proof.
  intros Hi Hj Hmi Hmj out st'.
  pose proof (invoke_unrolled descriptors unroller st i bi fuel mi [] Hi Hmi)
    as Ci.
  pose proof (invoke_unrolled descriptors unroller st j bj fuel mj [] Hj Hmj)
    as Cj.
  cbv zeta in Ci, Cj. rewrite app_nil_r in Ci, Cj.
  destruct (unrolled_cells_nth unroller descriptors i bi Hi) as [Hci _].
  destruct (unrolled_cells_nth unroller descriptors j bj Hj) as [Hcj _].
  subst out st'. rewrite unroll_descriptors_eq in *. cbn [fst snd] in *.
  do 2 eexists.
  exists (List.length st + 2 * i), (S (List.length st + 2 * i)),
         (List.length st + 2 * j), (S (List.length st + 2 * j)).
  split; [apply unrolled_from_nth, Hi |].
  split; [apply unrolled_from_nth, Hj |].
  cbn [md_create md_name].
  repeat split; try lia; try assumption.
  - now rewrite nth_error_app_right.
  - now rewrite nth_error_app_right.
  - intros m1 st1 H1.
    apply invoke_store in H1. now subst st1.
  - intros unroller' st2 dj' Hne Hdj' Hname.
    rewrite unroll_descriptors_eq in Hdj'. cbn [fst] in Hdj'.
    rewrite (unrolled_from_nth unroller' descriptors _ j bj Hj) in Hdj'.
    inversion Hdj'; subst dj'. cbn [md_name] in Hname.
    apply recurrent_name_inj in Hname. contradiction.
Qed.

(** The GRU and LSTM descriptors unrolled with [hk.dynamic_unroll]. *)
Lemma unrolled_factories_independent_witness :
  exists di dj ci ui cj uj,
    nth_error (fst (unroll_descriptors RNN_CORES (Some dynamic_unroll) [])) 1
    = Some di /\
    nth_error (fst (unroll_descriptors RNN_CORES (Some dynamic_unroll) [])) 2
    = Some dj /\
    md_create di = RecurrentLambda ci ui /\
    md_create dj = RecurrentLambda cj uj /\
    (1 <> 2 -> ci <> cj /\ ci <> uj /\ ui <> cj /\ ui <> uj) /\
    nth_error (snd (unroll_descriptors RNN_CORES (Some dynamic_unroll) [])) ci
    = Some (CFactory (Lambda0 (HkModule "GRU" [AInt 1]))) /\
    nth_error (snd (unroll_descriptors RNN_CORES (Some dynamic_unroll) [])) cj
    = Some (CFactory (Lambda0 (HkModule "LSTM" [AInt 1]))) /\
    invoke 2 (snd (unroll_descriptors RNN_CORES (Some dynamic_unroll) []))
           (md_create di)
    = Some (Recurrent (HkModule "GRU" [AInt 1]) (Some dynamic_unroll),
            snd (unroll_descriptors RNN_CORES (Some dynamic_unroll) [])) /\
    invoke 2 (snd (unroll_descriptors RNN_CORES (Some dynamic_unroll) []))
           (md_create dj)
    = Some (Recurrent (HkModule "LSTM" [AInt 1]) (Some dynamic_unroll),
            snd (unroll_descriptors RNN_CORES (Some dynamic_unroll) [])) /\
    (forall m1 st1,
        invoke 2 (snd (unroll_descriptors RNN_CORES (Some dynamic_unroll) []))
               (md_create di) = Some (m1, st1) ->
        invoke 2 st1 (md_create dj)
        = Some (Recurrent (HkModule "LSTM" [AInt 1]) (Some dynamic_unroll), st1)) /\
    (forall unroller' st2 dj',
        unroller' <> Some dynamic_unroll ->
        nth_error (fst (unroll_descriptors RNN_CORES unroller' st2)) 2
        = Some dj' ->
        md_name dj' <> md_name dj).
Proof.
  exact (unrolled_factories_independent
           RNN_CORES (Some dynamic_unroll) [] 1 2
           (mkModuleDescriptor "GRU" (Lambda0 (HkModule "GRU" [AInt 1]))
                               [BATCH_SIZE; 128] float32)
           (mkModuleDescriptor "LSTM" (Lambda0 (HkModule "LSTM" [AInt 1]))
                               [BATCH_SIZE; 128] float32)
           1 (HkModule "GRU" [AInt 1]) (HkModule "LSTM" [AInt 1])
           eq_refl eq_refl eq_refl eq_refl).
Defined.

Example RECURRENT_MODULES_names :
  map md_name RECURRENT_MODULES =
  [ "Recurrent(ResetCore, dynamic_unroll)"; "Recurrent(GRU, dynamic_unroll)";
    "Recurrent(LSTM, dynamic_unroll)"; "Recurrent(VanillaRNN, dynamic_unroll)";
    "Recurrent(ResetCore, static_unroll)"; "Recurrent(GRU, static_unroll)";
    "Recurrent(LSTM, static_unroll)"; "Recurrent(VanillaRNN, static_unroll)" ].
Proof. reflexivity. Qed.

Example unroll_descriptors_no_strategy :
  map md_name (fst (unroll_descriptors RNN_CORES None [])) =
  [ "Recurrent(ResetCore)"; "Recurrent(GRU)"; "Recurrent(LSTM)";
    "Recurrent(VanillaRNN)" ].
Proof. reflexivity. Qed.

(** C1, as stated, fails: [None] is one of the strategies and GRU one of
    the cores, and yet no descriptor of [RECURRENT_MODULES] is named
    [Recurrent(GRU)], none builds an adapter without a strategy, and the
    sequence has 8 descriptors, not 4 times 3. *)
Lemma RECURRENT_MODULES_lacks_default_variant :
  exists b s,
    In b RNN_CORES /\ In s unroll_strategies /\
    md_name b = "GRU" /\ s = None /\
    Forall (fun d => md_name d <> recurrent_name (md_name b) s)
           RECURRENT_MODULES /\
    Forall (fun d => built_unroller descriptors_store (md_create d) <> Some s)
           RECURRENT_MODULES /\
    List.length RECURRENT_MODULES = 8 /\
    List.length RNN_CORES * List.length unroll_strategies = 12.
Proof.
  exists (mkModuleDescriptor "GRU" (Lambda0 (HkModule "GRU" [AInt 1]))
                             [BATCH_SIZE; 128] float32), None.
  split; [simpl; tauto |].
  split; [simpl; tauto |].
  repeat split; repeat (constructor; [discriminate |]); constructor.
Qed.

(** Membership in a list that is given by its elements. *)
Ltac in_list := cbn; repeat (first [left; reflexivity | right]).

(** Find, by its position, the descriptor of [RECURRENT_MODULES] that
    answers a core and a strategy. *)
Ltac pick_unrolled_at k :=
  exists (nth k RECURRENT_MODULES
              (mkModuleDescriptor "" (Lambda0 IdentityCore) [] float32));
  eexists; split; [in_list | repeat split; reflexivity].

Ltac pick_unrolled :=
  first [ pick_unrolled_at 0 | pick_unrolled_at 1 | pick_unrolled_at 2
        | pick_unrolled_at 3 | pick_unrolled_at 4 | pick_unrolled_at 5
        | pick_unrolled_at 6 | pick_unrolled_at 7 ].

(** Find the core and the strategy that a descriptor of
    [RECURRENT_MODULES] comes from. *)
Ltac pick_core_at k u :=
  exists (nth k RNN_CORES
              (mkModuleDescriptor "" (Lambda0 IdentityCore) [] float32)), u;
  split; [in_list | split; reflexivity].

Ltac pick_core :=
  first [ pick_core_at 0 dynamic_unroll | pick_core_at 1 dynamic_unroll
        | pick_core_at 2 dynamic_unroll | pick_core_at 3 dynamic_unroll
        | pick_core_at 0 static_unroll | pick_core_at 1 static_unroll
        | pick_core_at 2 static_unroll | pick_core_at 3 static_unroll ].

(** C1, amended.  [RECURRENT_MODULES] is the descriptors of [RNN_CORES]
    unrolled with [hk.dynamic_unroll] followed by the same unrolled with
    [hk.static_unroll]: 4 times 2 descriptors with different names.  For
    every core descriptor and each of the two strategies there is a
    descriptor with the rewritten name, the same shape and dtype, and a
    factory that builds the core's module inside [Recurrent] with that
    strategy; every descriptor of the sequence is one of these, and none
    is built without a strategy. *)
Theorem RECURRENT_MODULES_spec :
  RECURRENT_MODULES =
    fst (unroll_descriptors RNN_CORES (Some dynamic_unroll) []) ++
    fst (unroll_descriptors RNN_CORES (Some static_unroll)
           (snd (unroll_descriptors RNN_CORES (Some dynamic_unroll) []))) /\
  List.length RECURRENT_MODULES = List.length RNN_CORES * 2 /\
  NoDup (map md_name RECURRENT_MODULES) /\
  (forall b u,
      In b RNN_CORES -> In u [dynamic_unroll; static_unroll] ->
      exists d m,
        In d RECURRENT_MODULES /\
        md_name d = recurrent_name (md_name b) (Some u) /\
        md_shape d = md_shape b /\
        md_dtype d = md_dtype b /\
        call_factory [] (md_create b) = Some (m, []) /\
        call_factory descriptors_store (md_create d)
        = Some (Recurrent m (Some u), descriptors_store)) /\
  (forall d,
      In d RECURRENT_MODULES ->
      exists b u,
        In b RNN_CORES /\
        md_name d = recurrent_name (md_name b) (Some u) /\
        built_unroller descriptors_store (md_create d) = Some (Some u)).
Proof.
  split; [reflexivity |].
  split; [reflexivity |].
  split.
  { cbn. repeat (constructor; [simpl; intuition discriminate |]). constructor. }
  split.
  - intros b u Hb Hu.
    simpl in Hb, Hu.
    destruct Hu as [<- | [<- | []]];
      destruct Hb as [<- | [<- | [<- | [<- | []]]]];
      pick_unrolled.
  - intros d Hd. cbn in Hd.
    repeat (destruct Hd as [<- | Hd]; [pick_core |]).
    destruct Hd.
Qed.

(* ================================================================== *)
(** * The monad: equations and two program logics                     *)
(* ================================================================== *)

Lemma bind_value {A B : Type} (t : list Event) (a : A) (k : A -> M B) :
  bind (t, inr a) k = (t ++ trace (k a), outcome (k a)).
Proof. unfold bind, trace, outcome. now destruct (k a). Qed.

Lemma bind_exn {A B : Type} (t : list Event) (e : Exn) (k : A -> M B) :
  bind (t, inl e) k = (t, inl e).
Proof. reflexivity. Qed.

Lemma bind_ret {A B : Type} (a : A) (k : A -> M B) : bind (ret a) k = k a.
Proof. unfold ret. rewrite bind_value. now destruct (k a). Qed.

Lemma bind_tell {B : Type} (ev : Event) (k : unit -> M B) :
  bind (tell ev) k = (ev :: trace (k tt), outcome (k tt)).
Proof. unfold tell. now rewrite bind_value. Qed.

Lemma trace_bind {A B : Type} (m : M A) (k : A -> M B) :
  trace (bind m k) =
  trace m ++ match outcome m with
             | inr a => trace (k a)
             | inl _ => []
             end.
Proof.
  destruct m as [t [e | a]]; simpl.
  - now rewrite app_nil_r.
  - now destruct (k a).
Qed.

Lemma outcome_bind {A B : Type} (m : M A) (k : A -> M B) :
  outcome (bind m k) =
  match outcome m with
  | inr a => outcome (k a)
  | inl e => inl e
  end.
Proof.
  destruct m as [t [e | a]]; simpl.
  - reflexivity.
  - now destruct (k a).
Qed.

Lemma raises_only_bind {A B : Type} (Q : Exn -> Prop)
      (m : M A) (k : A -> M B) :
  raises_only Q m ->
  (forall a, outcome m = inr a -> raises_only Q (k a)) ->
  raises_only Q (bind m k).
Proof.
  unfold raises_only. intros Hm Hk e. rewrite outcome_bind.
  destruct (outcome m) as [e' | a] eqn:E.
  - intros H; inversion H; subst. now apply Hm.
  - now apply Hk.
Qed.

Lemma raises_only_ret {A : Type} (Q : Exn -> Prop) (a : A) :
  raises_only Q (ret a).
Proof. intros e H. discriminate. Qed.

Lemma raises_only_tell (Q : Exn -> Prop) (ev : Event) :
  raises_only Q (tell ev).
Proof. intros e H. discriminate. Qed.

Lemma raises_only_raise {A : Type} (Q : Exn -> Prop) (e : Exn) :
  Q e -> raises_only Q (@raise A e).
Proof. intros HQ e' H. inversion H; subst. exact HQ. Qed.

Lemma raises_only_lift_lib {A : Type} (Q : Exn -> Prop) (r : string + A) :
  (forall msg, Q (LibraryError msg)) -> raises_only Q (lift_lib r).
Proof.
  intros HQ. destruct r; simpl.
  - now apply raises_only_raise.
  - apply raises_only_ret.
Qed.

Lemma all_events_bind {A B : Type} (P : Event -> Prop)
      (m : M A) (k : A -> M B) :
  all_events P m ->
  (forall a, outcome m = inr a -> all_events P (k a)) ->
  all_events P (bind m k).
Proof.
  unfold all_events. intros Hm Hk. rewrite trace_bind.
  apply Forall_app. split; [exact Hm |].
  destruct (outcome m) as [e | a] eqn:E.
  - constructor.
  - now apply Hk.
Qed.

Lemma all_events_ret {A : Type} (P : Event -> Prop) (a : A) :
  all_events P (ret a).
Proof. constructor. Qed.

Lemma all_events_raise {A : Type} (P : Event -> Prop) (e : Exn) :
  all_events P (@raise A e).
Proof. constructor. Qed.

Lemma all_events_tell (P : Event -> Prop) (ev : Event) :
  P ev -> all_events P (tell ev).
Proof. intros H. constructor; [exact H | constructor]. Qed.

Lemma all_events_lift_lib {A : Type} (P : Event -> Prop) (r : string + A) :
  all_events P (lift_lib r).
Proof. destruct r; constructor. Qed.

Lemma all_events_forM_ {A : Type} (P : Event -> Prop)
      (l : list A) (f : A -> M unit) :
  (forall a, In a l -> all_events P (f a)) -> all_events P (forM_ l f).
Proof.
  induction l as [| a l IH]; intros H; simpl.
  - apply all_events_ret.
  - apply all_events_bind.
    + apply H. now left.
    + intros _ _. apply IH. intros b Hb. apply H. now right.
Qed.

Lemma raises_only_forM_ {A : Type} (Q : Exn -> Prop)
      (l : list A) (f : A -> M unit) :
  (forall a, In a l -> raises_only Q (f a)) -> raises_only Q (forM_ l f).
Proof.
  induction l as [| a l IH]; intros H; simpl.
  - apply raises_only_ret.
  - apply raises_only_bind.
    + apply H. now left.
    + intros _ _. apply IH. intros b Hb. apply H. now right.
Qed.

Lemma forM__app {A : Type} (l1 l2 : list A) (f : A -> M unit) :
  forM_ (l1 ++ l2) f = bind (forM_ l1 f) (fun _ => forM_ l2 f).
Proof.
  induction l1 as [| a l1 IH]; simpl.
  - now destruct (forM_ l2 f).
  - rewrite IH.
    destruct (f a) as [t [e | []]]; simpl; [reflexivity |].
    destruct (forM_ l1 f) as [t1 [e1 | []]]; simpl; [reflexivity |].
    destruct (forM_ l2 f) as [t2 r2]. now rewrite app_assoc.
Qed.

Lemma bind_assoc {A B C : Type} (m : M A) (f : A -> M B) (k : B -> M C) :
  bind (bind m f) k = bind m (fun a => bind (f a) k).
Proof.
  destruct m as [t [e | a]]; simpl; [reflexivity |].
  destruct (f a) as [t1 [e1 | b]]; simpl; [reflexivity |].
  destruct (k b) as [t2 r2]. now rewrite app_assoc.
Qed.

Lemma prepend_prepend {A : Type} (e1 e2 : list Event) (m : M A) :
  prepend e1 (prepend e2 m) = prepend (e1 ++ e2) m.
Proof. unfold prepend. simpl. now rewrite app_assoc. Qed.

Lemma bind_prepend {A B : Type} (evs : list Event) (m : M A) (k : A -> M B) :
  bind (prepend evs m) k = prepend evs (bind m k).
Proof.
  destruct m as [t [e | a]]; unfold prepend; simpl; [reflexivity |].
  destruct (k a) as [t' r]. simpl. now rewrite app_assoc.
Qed.

Lemma bind_tell_prepend {B : Type} (ev : Event) (k : unit -> M B) :
  bind (tell ev) k = prepend [ev] (k tt).
Proof. now rewrite bind_tell. Qed.

Lemma bind_value_prepend {A B : Type} (t : list Event) (a : A)
      (k : A -> M B) :
  bind (t, inr a) k = prepend t (k a).
Proof. now rewrite bind_value. Qed.

(** One step of reduction of a computation whose head is known. *)
Ltac mstep :=
  first [ rewrite bind_assoc
        | rewrite bind_tell_prepend
        | rewrite bind_ret
        | rewrite bind_prepend
        | rewrite prepend_prepend ];
  cbv beta.

(* ================================================================== *)
(** * The conformance check (bfloat16_test.py)                        *)
(* ================================================================== *)

(** ** The cast of line 60 *)

Lemma mapM_pure {A B : Type} (f : A -> M B) (ev : A -> list Event)
      (h : A -> B) (l : list A) :
  Forall (fun a => f a = (ev a, inr (h a))) l ->
  mapM f l = (flat_map ev l, inr (map h l)).
Proof.
  induction 1 as [| a l Ha _ IH]; simpl.
  - reflexivity.
  - rewrite Ha. fold (mapM f l). rewrite IH. simpl.
    now rewrite app_nil_r.
Qed.

Lemma casts_of_app (td : DType) (l1 l2 : list Array) :
  casts_of td (l1 ++ l2) = casts_of td l1 ++ casts_of td l2.
Proof. unfold casts_of. now rewrite filter_app, map_app. Qed.

Lemma casts_of_flat_map (td : DType) (cs : list PyTree) :
  casts_of td (flat_map tree_leaves cs) =
  flat_map (fun c => casts_of td (tree_leaves c)) cs.
Proof.
  induction cs as [| c cs IH]; simpl.
  - reflexivity.
  - now rewrite casts_of_app, IH.
Qed.

(** The lambda of line 58 casts a float32 leaf and returns any other
    leaf itself. *)
Lemma f32_to_test_dtype_eq (lib : Library) (td : DType) (v : Array) :
  f32_to_test_dtype lib td v = (casts_of td [v], inr (cast_f32 lib td v)).
Proof.
  unfold f32_to_test_dtype, cast_f32, casts_of. simpl.
  now destruct (DType_eqb (dtype v) float32).
Qed.

(** [jax.tree_map] with that lambda: the casts, leaf by leaf, and the
    tree of the results. *)
Lemma tree_mapM_cast (lib : Library) (td : DType) (t : PyTree) :
  tree_mapM (f32_to_test_dtype lib td) t =
  (casts_of td (tree_leaves t), inr (tree_map (cast_f32 lib td) t)).
Proof.
  induction t as [v | k cs IH] using PyTree_nested_ind.
  - cbn [tree_mapM tree_leaves tree_map].
    rewrite f32_to_test_dtype_eq, bind_value. simpl.
    now rewrite app_nil_r.
  - cbn [tree_mapM tree_leaves tree_map].
    rewrite (mapM_pure _ (fun c => casts_of td (tree_leaves c))
                       (tree_map (cast_f32 lib td)) cs IH).
    rewrite bind_value. simpl.
    now rewrite app_nil_r, casts_of_flat_map.
Qed.

(** ** The assertions of lines 68 to 73 *)

Lemma leaf_ok_false (td : DType) (v : Array) :
  leaf_ok td v = false <-> dtype v <> int32 /\ dtype v <> td.
Proof.
  unfold leaf_ok. rewrite orb_false_iff, !DType_eqb_neq. tauto.
Qed.

Lemma assert_dtype_leaf_ok (td : DType) (v : Array) :
  leaf_ok td v = true ->
  assert_dtype_leaf td v = (asserts_of td [v], inr tt).
Proof.
  unfold leaf_ok, assert_dtype_leaf, asserts_of, assertEqual. simpl.
  destruct (DType_eqb (dtype v) int32); simpl; intros H.
  - reflexivity.
  - now rewrite H.
Qed.

Lemma assert_dtype_leaf_bad (td : DType) (v : Array) :
  leaf_ok td v = false ->
  assert_dtype_leaf td v =
  ([EvAssertEqual (dtype v) td], inl (AssertionError (dtype v) td)).
Proof.
  unfold leaf_ok, assert_dtype_leaf, assertEqual.
  destruct (DType_eqb (dtype v) int32); simpl; intros H.
  - discriminate.
  - now rewrite H.
Qed.

Lemma asserts_of_app (td : DType) (l1 l2 : list Array) :
  asserts_of td (l1 ++ l2) = asserts_of td l1 ++ asserts_of td l2.
Proof. unfold asserts_of. now rewrite filter_app, map_app. Qed.

(** A pass over leaves that are all int32 or of the test dtype makes one
    assertion per leaf that is not int32, and returns. *)
Lemma forM_assert_ok (td : DType) (vs : list Array) :
  forallb (leaf_ok td) vs = true ->
  forM_ vs (assert_dtype_leaf td) = (asserts_of td vs, inr tt).
Proof.
  induction vs as [| v vs IH]; simpl; intros H.
  - reflexivity.
  - apply andb_true_iff in H as [Hv Hvs].
    rewrite (assert_dtype_leaf_ok td v Hv), bind_value, (IH Hvs).
    change (v :: vs) with ([v] ++ vs). now rewrite asserts_of_app.
Qed.

(** Otherwise the pass stops at the first leaf that is neither, with the
    assertion error on that leaf's dtype. *)
Lemma forM_assert_bad (td : DType) (vs : list Array) :
  forallb (leaf_ok td) vs = false ->
  exists pre v post,
    vs = pre ++ v :: post /\
    forallb (leaf_ok td) pre = true /\
    leaf_ok td v = false /\
    forM_ vs (assert_dtype_leaf td) =
    (asserts_of td pre ++ [EvAssertEqual (dtype v) td],
     inl (AssertionError (dtype v) td)).
Proof.
  induction vs as [| v vs IH]; simpl; intros H.
  - discriminate.
  - destruct (leaf_ok td v) eqn:Hv.
    + simpl in H. destruct (IH H) as (pre & w & post & Evs & Hpre & Hw & Hrun).
      exists (v :: pre), w, post. simpl.
      rewrite Evs, Hv, Hpre. repeat split; auto.
      rewrite (assert_dtype_leaf_ok td v Hv), bind_value, <- Evs, Hrun.
      change (v :: pre) with ([v] ++ pre).
      now rewrite asserts_of_app, <- app_assoc.
    + exists [], v, vs. repeat split; auto.
      now rewrite (assert_dtype_leaf_bad td v Hv).
Qed.

Lemma filter_is_apply_asserts (td : DType) (vs : list Array) :
  filter is_apply (asserts_of td vs) = [].
Proof.
  unfold asserts_of.
  induction (filter (fun v => negb (DType_eqb (dtype v) int32)) vs);
    simpl; auto.
Qed.

Lemma filter_is_apply_casts (td : DType) (vs : list Array) :
  filter is_apply (casts_of td vs) = [].
Proof.
  unfold casts_of.
  induction (filter (fun v => DType_eqb (dtype v) float32) vs); simpl; auto.
Qed.

(** ** The run of [assert_dtype] *)

(** A skip, on another platform than the TPU. *)
Lemma assert_dtype_not_tpu (lib : Library) (env : Env) (td : DType)
      (module_fn : M Module) (shp : list nat) (input_dtype : DType) :
  platform (first_device env) <> "tpu" ->
  assert_dtype lib env td module_fn shp input_dtype =
  ([EvLocalDevices], inl (SkipTest "bfloat16 only supported on TPU")).
Proof.
  intros H. apply String.eqb_neq in H.
  unfold assert_dtype, local_devices, getitem, skipTest. simpl.
  now rewrite H.
Qed.

(** A skip, for an input dtype that is not float32. *)
Lemma assert_dtype_not_float32 (lib : Library) (env : Env) (td : DType)
      (module_fn : M Module) (shp : list nat) (input_dtype : DType) :
  platform (first_device env) = "tpu" ->
  input_dtype <> float32 ->
  assert_dtype lib env td module_fn shp input_dtype =
  ([EvLocalDevices], inl (SkipTest "Skipping module without float32 input")).
Proof.
  intros Hp Hd. apply DType_eqb_neq in Hd.
  unfold assert_dtype, local_devices, getitem, skipTest. simpl.
  now rewrite Hp, Hd.
Qed.

(** The run up to the loop, when [init_fn] returns. *)
Lemma assert_dtype_run (lib : Library) (env : Env) (td : DType)
      (module_fn : M Module) (shp : list nat) (params state : PyTree) :
  platform (first_device env) = "tpu" ->
  let rng := PRNGKey lib 42 in
  let T := transform_with_state lib (g lib module_fn) in
  let x := random_uniform lib rng shp in
  init_fn T rng x = inr (params, state) ->
  assert_dtype lib env td module_fn shp float32 =
  prepend ([EvLocalDevices; EvPRNGKey 42; EvTransform; EvUniform rng shp;
            EvInit rng x]
             ++ casts_of td (tree_leaves params ++ tree_leaves state)
             ++ [EvAstype x td])
          (apply_loop 2 T td
                      (tree_map (cast_f32 lib td) params)
                      (tree_map (cast_f32 lib td) state)
                      rng (astype lib x td)).
Proof.
  intros Hp rng T x Hinit.
  unfold assert_dtype, local_devices, getitem.
  do 3 mstep. cbn [nth_error]. mstep.
  rewrite Hp, String.eqb_refl. cbn [negb DType_eqb].
  unfold PRNGKey_call, transform_call, uniform_call, init_call, astype_call.
  do 3 mstep. fold rng. do 4 mstep. fold T. do 4 mstep. fold x.
  do 3 mstep. rewrite Hinit. cbn [lift_lib]. mstep.
  rewrite tree_mapM_cast, bind_value_prepend. cbv beta.
  cbn [tree_map map tree_leaves flat_map].
  repeat mstep.
  rewrite app_nil_r. rewrite <- !app_assoc. reflexivity.
Qed.

(** One iteration of the loop, when [apply_fn] returns. *)
Lemma apply_loop_step (n : nat) (T : Transformed) (td : DType)
      (params state y state' : PyTree) (rng x : Array) :
  apply_fn T params state rng x = inr (y, state') ->
  apply_loop (S n) T td params state rng x =
  prepend [EvApply params state rng x]
          (bind (forM_ (tree_leaves y ++ tree_leaves state')
                       (assert_dtype_leaf td))
                (fun _ => apply_loop n T td params state' rng x)).
Proof.
  intros Happly. cbn [apply_loop]. unfold apply_call, tree_forM.
  do 2 mstep. rewrite Happly. cbn [lift_lib]. mstep.
  now rewrite forM__app, bind_assoc.
Qed.

(** Two iterations, with the leaves of both rounds in order. *)
Lemma apply_loop_two_ok (T : Transformed) (td : DType)
      (params state y1 s1 y2 s2 : PyTree) (rng x : Array) :
  apply_fn T params state rng x = inr (y1, s1) ->
  apply_fn T params s1 rng x = inr (y2, s2) ->
  forallb (leaf_ok td) (tree_leaves y1 ++ tree_leaves s1) = true ->
  apply_loop 2 T td params state rng x =
  prepend ([EvApply params state rng x]
             ++ asserts_of td (tree_leaves y1 ++ tree_leaves s1)
             ++ [EvApply params s1 rng x])
          (forM_ (tree_leaves y2 ++ tree_leaves s2) (assert_dtype_leaf td)).
Proof.
  intros H1 H2 Hok.
  rewrite (apply_loop_step 1 T td params state y1 s1 rng x H1).
  rewrite (forM_assert_ok td _ Hok), bind_value_prepend.
  rewrite (apply_loop_step 0 T td params s1 y2 s2 rng x H2).
  cbn [apply_loop].
  rewrite !prepend_prepend, <- !app_assoc.
  f_equal.
  destruct (forM_ (tree_leaves y2 ++ tree_leaves s2) (assert_dtype_leaf td))
    as [t [e | []]]; simpl; [reflexivity |].
  now rewrite app_nil_r.
Qed.

Lemma filter_is_apply_prefix (lib : Library) (td : DType) (shp : list nat)
      (params state : PyTree) (rng x : Array) :
  filter is_apply
         ([EvLocalDevices; EvPRNGKey 42; EvTransform; EvUniform rng shp;
           EvInit rng x]
            ++ casts_of td (tree_leaves params ++ tree_leaves state)
            ++ [EvAstype x td]) = [].
Proof.
  rewrite !filter_app, filter_is_apply_casts. reflexivity.
Qed.

(** ** What any run of [assert_dtype] does and raises *)

Section AnyRun.

Variable lib : Library.
Variable td : DType.

(** A property of events that holds of every event that [assert_dtype]
    can produce for the test dtype [td]. *)
Variable P : Event -> Prop.
Hypothesis P_devices : P EvLocalDevices.
Hypothesis P_key : P (EvPRNGKey 42).
Hypothesis P_transform : P EvTransform.
Hypothesis P_uniform : forall shp, P (EvUniform (PRNGKey lib 42) shp).
Hypothesis P_init : forall x, P (EvInit (PRNGKey lib 42) x).
Hypothesis P_astype : forall v, P (EvAstype v td).
Hypothesis P_apply : forall p s x, P (EvApply p s (PRNGKey lib 42) x).
Hypothesis P_assert : forall a, a <> int32 -> P (EvAssertEqual a td).

Lemma assert_dtype_leaf_events (v : Array) :
  all_events P (assert_dtype_leaf td v).
Proof.
  unfold assert_dtype_leaf.
  destruct (DType_eqb (dtype v) int32) eqn:E; simpl.
  - apply all_events_ret.
  - unfold assertEqual. apply all_events_bind.
    + apply all_events_tell, P_assert. now apply DType_eqb_neq.
    + intros _ _. destruct (DType_eqb (dtype v) td).
      * apply all_events_ret.
      * apply all_events_raise.
Qed.

Lemma apply_loop_events (n : nat) (T : Transformed) (params : PyTree)
      (x : Array) :
  forall state,
    all_events P (apply_loop n T td params state (PRNGKey lib 42) x).
Proof.
  induction n as [| n IH]; intros state; cbn [apply_loop].
  - apply all_events_ret.
  - apply all_events_bind.
    + unfold apply_call. apply all_events_bind.
      * apply all_events_tell, P_apply.
      * intros _ _. apply all_events_lift_lib.
    + intros [y state'] _.
      apply all_events_bind.
      * apply all_events_forM_. intros v _. apply assert_dtype_leaf_events.
      * intros _ _. apply all_events_bind.
        -- apply all_events_forM_. intros v _.
           apply assert_dtype_leaf_events.
        -- intros _ _. apply IH.
Qed.

Lemma assert_dtype_events (env : Env) (module_fn : M Module)
      (shp : list nat) (input_dtype : DType) :
  all_events P (assert_dtype lib env td module_fn shp input_dtype).
Proof.
  unfold assert_dtype.
  apply all_events_bind.
  { unfold local_devices. apply all_events_bind.
    - now apply all_events_tell.
    - intros _ _. apply all_events_ret. }
  intros devices _.
  apply all_events_bind.
  { unfold getitem. destruct (nth_error devices 0).
    - apply all_events_ret.
    - apply all_events_raise. }
  intros device _.
  destruct (negb (platform device =? "tpu")%string);
    [apply all_events_raise |].
  destruct (negb (DType_eqb input_dtype float32));
    [apply all_events_raise |].
  apply all_events_bind.
  { unfold PRNGKey_call. apply all_events_bind.
    - now apply all_events_tell.
    - intros _ _. apply all_events_ret. }
  intros rng Hrng.
  assert (rng = PRNGKey lib 42) by (cbn in Hrng; congruence). subst rng.
  apply all_events_bind.
  { unfold transform_call. apply all_events_bind.
    - now apply all_events_tell.
    - intros _ _. apply all_events_ret. }
  intros T _.
  apply all_events_bind.
  { unfold uniform_call. apply all_events_bind.
    - apply all_events_tell, P_uniform.
    - intros _ _. apply all_events_ret. }
  intros x _.
  apply all_events_bind.
  { unfold init_call. apply all_events_bind.
    - apply all_events_tell, P_init.
    - intros _ _. apply all_events_lift_lib. }
  intros [params state] _.
  rewrite tree_mapM_cast.
  apply all_events_bind.
  { unfold all_events, casts_of. cbn [trace fst].
    apply Forall_map, Forall_forall. intros v _. apply P_astype. }
  intros casted Hcasted.
  cbn in Hcasted. inversion Hcasted; subst casted.
  apply all_events_bind.
  { unfold astype_call. apply all_events_bind.
    - apply all_events_tell, P_astype.
    - intros _ _. apply all_events_ret. }
  intros x' _. apply apply_loop_events.
Qed.

(** A property of exceptions that holds of every exception that
    [assert_dtype] raises itself or lets through. *)
Variable Q : Exn -> Prop.
Hypothesis Q_library : forall msg, Q (LibraryError msg).
Hypothesis Q_assert : forall a, a <> int32 -> a <> td -> Q (AssertionError a td).

Lemma assert_dtype_leaf_raises (v : Array) :
  raises_only Q (assert_dtype_leaf td v).
Proof.
  unfold assert_dtype_leaf.
  destruct (DType_eqb (dtype v) int32) eqn:E; simpl.
  - apply raises_only_ret.
  - unfold assertEqual. apply raises_only_bind.
    + apply raises_only_tell.
    + intros _ _. destruct (DType_eqb (dtype v) td) eqn:E'.
      * apply raises_only_ret.
      * apply raises_only_raise, Q_assert; now apply DType_eqb_neq.
Qed.

Lemma apply_loop_raises (n : nat) (T : Transformed) (params : PyTree)
      (rng x : Array) :
  forall state, raises_only Q (apply_loop n T td params state rng x).
Proof.
  induction n as [| n IH]; intros state; cbn [apply_loop].
  - apply raises_only_ret.
  - apply raises_only_bind.
    + unfold apply_call. apply raises_only_bind.
      * apply raises_only_tell.
      * intros _ _. now apply raises_only_lift_lib.
    + intros [y state'] _.
      apply raises_only_bind.
      * apply raises_only_forM_. intros v _. apply assert_dtype_leaf_raises.
      * intros _ _. apply raises_only_bind.
        -- apply raises_only_forM_. intros v _.
           apply assert_dtype_leaf_raises.
        -- intros _ _. apply IH.
Qed.

Lemma assert_dtype_raises (env : Env) (module_fn : M Module)
      (shp : list nat) (input_dtype : DType) :
  (platform (first_device env) <> "tpu" ->
   Q (SkipTest "bfloat16 only supported on TPU")) ->
  (platform (first_device env) = "tpu" -> input_dtype <> float32 ->
   Q (SkipTest "Skipping module without float32 input")) ->
  raises_only Q (assert_dtype lib env td module_fn shp input_dtype).
Proof.
  intros Q_skip1 Q_skip2.
  destruct (String.eqb_spec (platform (first_device env)) "tpu") as [Hp | Hp].
  2:{ rewrite assert_dtype_not_tpu by exact Hp.
      intros e He. cbn in He. inversion He; subst. auto. }
  destruct (DType_eqb_spec input_dtype float32) as [Hd | Hd].
  2:{ rewrite assert_dtype_not_float32 by assumption.
      intros e He. cbn in He. inversion He; subst. auto. }
  subst input_dtype.
  unfold assert_dtype, local_devices, getitem.
  do 3 mstep. cbn [nth_error]. mstep.
  rewrite Hp, String.eqb_refl. cbn [negb DType_eqb].
  intros e. unfold prepend. cbn [outcome snd]. revert e.
  change (raises_only Q
    (rng <- PRNGKey_call lib 42 ;;
     T <- transform_call lib (g lib module_fn) ;;
     x <- uniform_call lib rng shp ;;
     ' (params, state) <- init_call T rng x ;;
     casted <- tree_mapM (f32_to_test_dtype lib td)
                         (Node KTuple [params; state]) ;;
     match casted with
     | Node KTuple [params0; state0] =>
         x0 <- astype_call lib x td ;;
         apply_loop 2 T td params0 state0 rng x0
     | _ => raise (ValueError "cannot unpack")
     end)).
  apply raises_only_bind.
  { unfold PRNGKey_call. apply raises_only_bind.
    - apply raises_only_tell.
    - intros _ _. apply raises_only_ret. }
  intros rng _.
  apply raises_only_bind.
  { unfold transform_call. apply raises_only_bind.
    - apply raises_only_tell.
    - intros _ _. apply raises_only_ret. }
  intros T _.
  apply raises_only_bind.
  { unfold uniform_call. apply raises_only_bind.
    - apply raises_only_tell.
    - intros _ _. apply raises_only_ret. }
  intros x _.
  apply raises_only_bind.
  { unfold init_call. apply raises_only_bind.
    - apply raises_only_tell.
    - intros _ _. now apply raises_only_lift_lib. }
  intros [params state] _.
  rewrite tree_mapM_cast.
  apply raises_only_bind.
  { intros e He. discriminate. }
  intros casted Hcasted.
  cbn in Hcasted. inversion Hcasted; subst casted.
  apply raises_only_bind.
  { unfold astype_call. apply raises_only_bind.
    - apply raises_only_tell.
    - intros _ _. apply raises_only_ret. }
  intros x' _. apply apply_loop_raises.
Qed.

End AnyRun.

(** [assert_dtype] looks at the environment for the platform of the
    first device only. *)
Lemma assert_dtype_env (lib : Library) (env env' : Env) (td : DType)
      (module_fn : M Module) (shp : list nat) (input_dtype : DType) :
  platform (first_device env') = platform (first_device env) ->
  assert_dtype lib env' td module_fn shp input_dtype =
  assert_dtype lib env td module_fn shp input_dtype.
Proof.
  intros H. unfold assert_dtype, local_devices, getitem.
  do 2 (do 3 mstep; cbn [nth_error]; mstep).
  rewrite H. reflexivity.
Qed.

(** C5.  [assert_dtype] ends with a skip exactly when the platform of
    the first local device is not ['tpu'] or the declared input dtype is
    not float32; a skipped run has asked for the local devices and done
    nothing else: no cast, no initialisation, no application, no
    assertion; and the Embed descriptor, whose dtype is int32, is skipped
    in every environment. *)
Theorem assert_dtype_skips
        (lib : Library) (env : Env) (test_dtype : DType)
        (module_fn : M Module) (shp : list nat) (input_dtype : DType) :
  let run := assert_dtype lib env test_dtype module_fn shp input_dtype in
  ((exists reason, outcome run = inl (SkipTest reason)) <->
   (platform (first_device env) <> "tpu" \/ input_dtype <> float32)) /\
  ((exists reason, outcome run = inl (SkipTest reason)) ->
   trace run = [EvLocalDevices]) /\
  (exists d,
      In d BATCH_MODULES /\ md_name d = "Embed" /\ md_dtype d = int32 /\
      exists reason,
        run_descriptor lib env d = ([EvLocalDevices], inl (SkipTest reason))).
Proof.
  intros run. subst run.
  assert (Hskip :
            platform (first_device env) <> "tpu" \/ input_dtype <> float32 ->
            exists reason,
              assert_dtype lib env test_dtype module_fn shp input_dtype
              = ([EvLocalDevices], inl (SkipTest reason))).
  { intros H.
    destruct (String.eqb_spec (platform (first_device env)) "tpu") as [Hp | Hp].
    - destruct H as [H | H]; [contradiction |].
      eexists. now apply assert_dtype_not_float32.
    - eexists. now apply assert_dtype_not_tpu. }
  assert (Hrun :
            (exists reason,
                outcome (assert_dtype lib env test_dtype module_fn shp
                                      input_dtype) = inl (SkipTest reason)) ->
            platform (first_device env) <> "tpu" \/ input_dtype <> float32).
  { intros [reason Hr].
    destruct (String.eqb_spec (platform (first_device env)) "tpu") as [Hp | Hp];
      [| now left].
    destruct (DType_eqb_spec input_dtype float32) as [Hd | Hd];
      [| now right].
    exfalso.
    assert (HQ : raises_only
                   (fun e => forall r, e <> SkipTest r)
                   (assert_dtype lib env test_dtype module_fn shp input_dtype)).
    { apply assert_dtype_raises; intros; try discriminate; contradiction. }
    exact (HQ _ Hr reason eq_refl). }
  split; [split |]; [exact Hrun | | split].
  - intros H. destruct (Hskip H) as [reason Hr]. exists reason. now rewrite Hr.
  - intros H. destruct (Hskip (Hrun H)) as [reason Hr]. now rewrite Hr.
  - exists (mkModuleDescriptor
              "Embed"
              (Lambda0 (HkModule "Embed"
                                 [AKw "vocab_size" 6; AKw "embed_dim" 12]))
              [BATCH_SIZE] int32).
    split; [in_list |].
    split; [reflexivity |]. split; [reflexivity |].
    unfold run_descriptor, test_bfloat16. cbn [md_dtype].
    destruct (String.eqb_spec (platform (first_device env)) "tpu") as [Hp | Hp].
    + eexists. apply assert_dtype_not_float32; [exact Hp | discriminate].
    + eexists. now apply assert_dtype_not_tpu.
Qed.

(** C8.  The lambda of line 58 casts a leaf of dtype float32 to the test
    dtype (same shape, every element converted) and returns a leaf of any
    other dtype as it is, without a cast.  [jax.tree_map] of it over
    [(params, state)] visits every leaf: the result has the structure of
    the argument, its leaves are the images of the leaves, in order, and
    the casts performed are those of the float32 leaves. *)
Theorem f32_to_test_dtype_spec
        (lib : Library) (test_dtype : DType) (params state : PyTree) :
  (forall v,
      dtype v = float32 ->
      f32_to_test_dtype lib test_dtype v =
      ([EvAstype v test_dtype], inr (astype lib v test_dtype)) /\
      dtype (astype lib v test_dtype) = test_dtype /\
      shape (astype lib v test_dtype) = shape v /\
      data (astype lib v test_dtype) =
      map (convert lib float32 test_dtype) (data v)) /\
  (forall v,
      dtype v <> float32 -> f32_to_test_dtype lib test_dtype v = ([], inr v)) /\
  exists params' state',
    tree_mapM (f32_to_test_dtype lib test_dtype) (Node KTuple [params; state])
    = (map (fun v => EvAstype v test_dtype)
           (filter (fun v => DType_eqb (dtype v) float32)
                   (tree_leaves params ++ tree_leaves state)),
       inr (Node KTuple [params'; state'])) /\
    treedef params' = treedef params /\
    treedef state' = treedef state /\
    Forall2 (fun v v' =>
               f32_to_test_dtype lib test_dtype v
               = (if DType_eqb (dtype v) float32
                  then [EvAstype v test_dtype] else [], inr v'))
            (tree_leaves params ++ tree_leaves state)
            (tree_leaves params' ++ tree_leaves state').
Proof.
  split; [| split].
  - intros v Hv. repeat split.
    + unfold f32_to_test_dtype, astype_call. rewrite Hv. reflexivity.
    + unfold astype. cbn. now rewrite Hv.
  - intros v Hv. apply DType_eqb_neq in Hv.
    unfold f32_to_test_dtype. now rewrite Hv.
  - exists (tree_map (cast_f32 lib test_dtype) params),
           (tree_map (cast_f32 lib test_dtype) state).
    split.
    + rewrite tree_mapM_cast. cbn [tree_leaves flat_map tree_map map].
      now rewrite app_nil_r.
    + split; [apply tree_map_treedef |].
      split; [apply tree_map_treedef |].
      rewrite !tree_map_leaves, <- map_app.
      induction (tree_leaves params ++ tree_leaves state) as [| v vs IH];
        simpl; constructor; auto.
      rewrite f32_to_test_dtype_eq. unfold casts_of. simpl.
      now destruct (DType_eqb (dtype v) float32).
Qed.

(** C4.  In a run that is not skipped and in which [init_fn] and the two
    calls of [apply_fn] return, with [(y1, s1)] the result of the first
    application and [(y2, s2)] that of the second:
    - the first application receives the cast parameters and the cast
      state, the second the same parameters and [s1], the state that the
      first one returned;
    - when every leaf of [y1], [s1], [y2] and [s2] is int32 or of the
      test dtype, the run passes, and after each application it has
      asserted, leaf by leaf, that the dtype of every leaf of the output
      and then of the state that is not int32 equals the test dtype;
    - an assertion is never made on an int32 leaf;
    - otherwise the run ends at the first leaf that is neither, with the
      assertion error on its dtype (after one application if that leaf
      belongs to the first round, after two otherwise);
    - the run ends with no other exception. *)
Theorem assert_dtype_applies_twice
        (lib : Library) (env : Env) (test_dtype : DType)
        (module_fn : M Module) (shp : list nat)
        (params state y1 s1 y2 s2 : PyTree) :
  platform (first_device env) = "tpu" ->
  let rng := PRNGKey lib 42 in
  let T := transform_with_state lib (g lib module_fn) in
  let x0 := random_uniform lib rng shp in
  let params' := tree_map (cast_f32 lib test_dtype) params in
  let state' := tree_map (cast_f32 lib test_dtype) state in
  let x := astype lib x0 test_dtype in
  init_fn T rng x0 = inr (params, state) ->
  apply_fn T params' state' rng x = inr (y1, s1) ->
  apply_fn T params' s1 rng x = inr (y2, s2) ->
  let setup :=
    [EvLocalDevices; EvPRNGKey 42; EvTransform; EvUniform rng shp;
     EvInit rng x0]
      ++ casts_of test_dtype (tree_leaves params ++ tree_leaves state)
      ++ [EvAstype x0 test_dtype] in
  let round1 := tree_leaves y1 ++ tree_leaves s1 in
  let round2 := tree_leaves y2 ++ tree_leaves s2 in
  let run := assert_dtype lib env test_dtype module_fn shp float32 in
  (forallb (leaf_ok test_dtype) (round1 ++ round2) = true ->
   run = (setup
            ++ [EvApply params' state' rng x] ++ asserts_of test_dtype round1
            ++ [EvApply params' s1 rng x] ++ asserts_of test_dtype round2,
          inr tt)) /\
  (forallb (leaf_ok test_dtype) round1 = false ->
   filter is_apply (trace run) = [EvApply params' state' rng x] /\
   exists v,
     In v round1 /\ dtype v <> int32 /\ dtype v <> test_dtype /\
     outcome run = inl (AssertionError (dtype v) test_dtype)) /\
  (forallb (leaf_ok test_dtype) round1 = true ->
   forallb (leaf_ok test_dtype) round2 = false ->
   filter is_apply (trace run)
   = [EvApply params' state' rng x; EvApply params' s1 rng x] /\
   exists v,
     In v round2 /\ dtype v <> int32 /\ dtype v <> test_dtype /\
     outcome run = inl (AssertionError (dtype v) test_dtype)) /\
  Forall (fun ev =>
            match ev with
            | EvAssertEqual first second =>
                first <> int32 /\ second = test_dtype
            | _ => True
            end) (trace run) /\
  (forall e,
      outcome run = inl e ->
      exists v,
        In v (round1 ++ round2) /\ leaf_ok test_dtype v = false /\
        e = AssertionError (dtype v) test_dtype).
Proof.
  intros Hp rng T x0 params' state' x Hinit H1 H2 setup round1 round2 run.
  assert (Hrun : run = prepend setup
                               (apply_loop 2 T test_dtype params' state' rng x)).
  { subst run setup. now apply assert_dtype_run. }
  assert (Hsetup : filter is_apply setup = []).
  { subst setup. now apply filter_is_apply_prefix. }
  (* the three ways the two rounds can go *)
  assert (Hpass :
            forallb (leaf_ok test_dtype) round1 = true ->
            forallb (leaf_ok test_dtype) round2 = true ->
            run = (setup
                     ++ [EvApply params' state' rng x]
                     ++ asserts_of test_dtype round1
                     ++ [EvApply params' s1 rng x]
                     ++ asserts_of test_dtype round2, inr tt)).
  { intros Hr1 Hr2. rewrite Hrun.
    rewrite (apply_loop_two_ok T test_dtype params' state' y1 s1 y2 s2 rng x
                               H1 H2 Hr1).
    fold round1 round2. rewrite (forM_assert_ok test_dtype round2 Hr2).
    unfold prepend. cbn [trace outcome fst snd].
    rewrite <- ?app_assoc. reflexivity. }
  assert (Hfail1 :
            forallb (leaf_ok test_dtype) round1 = false ->
            exists pre v post,
              round1 = pre ++ v :: post /\ leaf_ok test_dtype v = false /\
              run = (setup ++ [EvApply params' state' rng x]
                           ++ asserts_of test_dtype pre
                           ++ [EvAssertEqual (dtype v) test_dtype],
                     inl (AssertionError (dtype v) test_dtype))).
  { intros Hr1. rewrite Hrun.
    rewrite (apply_loop_step 1 T test_dtype params' state' y1 s1 rng x H1).
    fold round1.
    destruct (forM_assert_bad test_dtype round1 Hr1)
      as (pre & v & post & Er & _ & Hv & Hf).
    exists pre, v, post. split; [exact Er |]. split; [exact Hv |].
    rewrite Hf, bind_exn.
    unfold prepend. cbn [trace outcome fst snd].
    rewrite <- ?app_assoc. reflexivity. }
  assert (Hfail2 :
            forallb (leaf_ok test_dtype) round1 = true ->
            forallb (leaf_ok test_dtype) round2 = false ->
            exists pre v post,
              round2 = pre ++ v :: post /\ leaf_ok test_dtype v = false /\
              run = (setup ++ [EvApply params' state' rng x]
                           ++ asserts_of test_dtype round1
                           ++ [EvApply params' s1 rng x]
                           ++ asserts_of test_dtype pre
                           ++ [EvAssertEqual (dtype v) test_dtype],
                     inl (AssertionError (dtype v) test_dtype))).
  { intros Hr1 Hr2. rewrite Hrun.
    rewrite (apply_loop_two_ok T test_dtype params' state' y1 s1 y2 s2 rng x
                               H1 H2 Hr1).
    fold round1 round2.
    destruct (forM_assert_bad test_dtype round2 Hr2)
      as (pre & v & post & Er & _ & Hv & Hf).
    exists pre, v, post. split; [exact Er |]. split; [exact Hv |].
    rewrite Hf.
    unfold prepend. cbn [trace outcome fst snd].
    rewrite <- ?app_assoc. reflexivity. }
  split; [| split; [| split; [| split]]].
  - intros Hall. rewrite forallb_app in Hall.
    apply andb_true_iff in Hall as [Hr1 Hr2]. now apply Hpass.
  - intros Hr1.
    destruct (Hfail1 Hr1) as (pre & v & post & Er & Hv & Hf).
    rewrite Hf. cbn [trace outcome fst snd]. split.
    + rewrite !filter_app, Hsetup, filter_is_apply_asserts. reflexivity.
    + exists v. apply leaf_ok_false in Hv as [Hv1 Hv2].
      repeat split; auto. rewrite Er. apply in_elt.
  - intros Hr1 Hr2.
    destruct (Hfail2 Hr1 Hr2) as (pre & v & post & Er & Hv & Hf).
    rewrite Hf. cbn [trace outcome fst snd]. split.
    + rewrite !filter_app, Hsetup, !filter_is_apply_asserts. reflexivity.
    + exists v. apply leaf_ok_false in Hv as [Hv1 Hv2].
      repeat split; auto. rewrite Er. apply in_elt.
  - apply (assert_dtype_events lib test_dtype); try exact I; auto.
  - intros e He.
    destruct (forallb (leaf_ok test_dtype) round1) eqn:Hr1.
    + destruct (forallb (leaf_ok test_dtype) round2) eqn:Hr2.
      * rewrite (Hpass eq_refl eq_refl) in He. discriminate.
      * destruct (Hfail2 eq_refl eq_refl) as (pre & v & post & Er & Hv & Hf).
        rewrite Hf in He. cbn in He. inversion He; subst e.
        exists v. repeat split; auto.
        apply in_or_app. right. rewrite Er. apply in_elt.
    + destruct (Hfail1 eq_refl) as (pre & v & post & Er & Hv & Hf).
      rewrite Hf in He. cbn in He. inversion He; subst e.
      exists v. repeat split; auto.
      apply in_or_app. left. rewrite Er. apply in_elt.
Qed.

(** A run on the TPU with the demonstration library: the two
    applications return leaves of dtype bfloat16 and int32 only. *)
Lemma assert_dtype_applies_twice_witness :
  platform (first_device tpu_env) = "tpu" /\
  outcome (assert_dtype demo_library tpu_env bfloat16
                        (ret (HkModule "Linear" [AInt 10])) [8; 1] float32)
  = inr tt /\
  List.length
    (filter is_apply
            (trace (assert_dtype demo_library tpu_env bfloat16
                                 (ret (HkModule "Linear" [AInt 10]))
                                 [8; 1] float32))) = 2.
Proof.
  pose proof
       (assert_dtype_applies_twice
          demo_library tpu_env bfloat16
          (ret (HkModule "Linear" [AInt 10])) [8; 1]
          demo_params demo_state
          (Leaf (astype demo_library
                        (random_uniform demo_library (PRNGKey demo_library 42)
                                        [8; 1]) bfloat16))
          (tree_map (cast_f32 demo_library bfloat16) demo_state)
          (Leaf (astype demo_library
                        (random_uniform demo_library (PRNGKey demo_library 42)
                                        [8; 1]) bfloat16))
          (tree_map (cast_f32 demo_library bfloat16) demo_state)
          eq_refl eq_refl eq_refl eq_refl) as H.
  cbv zeta in H. destruct H as [Hpass _].
  split; [reflexivity |].
  rewrite (Hpass eq_refl). split; reflexivity.
Defined.

Example assert_dtype_float32_output_fails :
  report (outcome (assert_dtype demo_library_f32 tpu_env bfloat16
                                (ret (HkModule "Linear" [AInt 10]))
                                [8; 1] float32))
  = Failure float32 bfloat16 /\
  List.length
    (filter is_apply
            (trace (assert_dtype demo_library_f32 tpu_env bfloat16
                                 (ret (HkModule "Linear" [AInt 10]))
                                 [8; 1] float32))) = 1.
Proof. split; reflexivity. Qed.

(* ================================================================== *)
(** * The Recurrent adapter and the test module                       *)
(* ================================================================== *)

(** C3.  The test method is parameterized by
    [test_utils.combined_named_parameters(descriptors.ALL_MODULES)].
    The [descriptors] module binds [BATCH_MODULES], [RNN_CORES] and
    [RECURRENT_MODULES], and no [ALL_MODULES]: whatever
    [combined_named_parameters] is, evaluating the decorator raises
    [AttributeError], and the test is given no triple at all.  The name
    [ModuleFn], used in the annotations of the test file, is not bound
    either. *)
Theorem Bfloat16Test_decorator_raises
        (Decorator : Type)
        (combined_named_parameters : list ModuleDescriptor -> Decorator) :
  Bfloat16Test_decorator Decorator combined_named_parameters
  = inl (AttributeError "haiku._src.integration.descriptors" "ALL_MODULES") /\
  module_getattr "haiku._src.integration.descriptors" descriptors_namespace
                 "BATCH_MODULES" = inr (VDescriptors BATCH_MODULES) /\
  module_getattr "haiku._src.integration.descriptors" descriptors_namespace
                 "RNN_CORES" = inr (VDescriptors RNN_CORES) /\
  module_getattr "haiku._src.integration.descriptors" descriptors_namespace
                 "RECURRENT_MODULES" = inr (VDescriptors RECURRENT_MODULES) /\
  Forall (fun binding => fst binding <> "ALL_MODULES"
                         /\ fst binding <> "ModuleFn")
         descriptors_namespace.
Proof.
  repeat split; try reflexivity.
  unfold descriptors_namespace.
  repeat (constructor; [split; discriminate |]). constructor.
Qed.

(* ================================================================== *)
(** * Further properties of descriptors.py                            *)
(* ================================================================== *)

(** ** [unwrap] *)

(** X1.  [unwrap] is idempotent; it returns its argument exactly when
    the argument is not a [Wrapped]; and it sees through every adapter:
    the terminal module of an adapter is that of the module it wraps. *)
Theorem unwrap_idempotent (module : Module) :
  unwrap (unwrap module) = unwrap module /\
  (unwrap module = module <-> isinstance_Wrapped module = false) /\
  (forall w, get_wrapped module = Some w -> unwrap module = unwrap w) /\
  (forall u, unwrap (Training module) = unwrap module /\
             unwrap (Recurrent module u) = unwrap module /\
             unwrap (ResetCoreAdapter module) = unwrap module).
Proof.
  split; [| split; [| split]].
  - apply unwrap_terminal, unwrap_not_Wrapped.
  - split.
    + intros H. rewrite <- H. apply unwrap_not_Wrapped.
    + apply unwrap_terminal.
  - intros w Hw. destruct module; simpl in *; try discriminate;
      now inversion Hw.
  - intros u. repeat split.
Qed.

(** X2.  The loop of [unwrap] makes exactly as many iterations as there
    are [Wrapped] layers: a bound is enough if and only if it is at least
    that number, and whenever the loop ends, it ends on the terminal
    module. *)
Theorem unwrap_while_iterations (module : Module) (fuel : nat) :
  (unwrap_while fuel module = None <-> fuel < wrap_depth module) /\
  (forall t, unwrap_while fuel module = Some t <->
             wrap_depth module <= fuel /\ t = unwrap module).
Proof.
  destruct (Nat.lt_ge_cases fuel (wrap_depth module)) as [Hlt | Hge].
  - rewrite (unwrap_while_short module fuel Hlt). split.
    + split; auto.
    + intros t. split; [discriminate | intros [H _]; lia].
  - rewrite (unwrap_while_enough module fuel Hge). split.
    + split; [discriminate | lia].
    + intros t. split.
      * intros H. inversion H. auto.
      * intros [_ ->]. reflexivity.
Qed.

(** X3.  Unrolling does not change the terminal module: the module that
    the [i]-th unrolled factory builds has one more layer than, and the
    same terminal module as, the module that the [i]-th base factory
    builds. *)
Theorem unrolled_module_unwraps_to_base
        (descriptors : list ModuleDescriptor) (unroller : option Unroller)
        (st : Store) (i : nat) (d : ModuleDescriptor)
        (fuel : nat) (m : Module) :
  nth_error descriptors i = Some d ->
  invoke fuel st (md_create d) = Some (m, st) ->
  let out := fst (unroll_descriptors descriptors unroller st) in
  let st' := snd (unroll_descriptors descriptors unroller st) in
  exists d' m',
    nth_error out i = Some d' /\
    invoke (S fuel) st' (md_create d') = Some (m', st') /\
    isinstance_Wrapped m' = true /\
    wrap_depth m' = S (wrap_depth m) /\
    unwrap m' = unwrap m.
Proof.
  intros Hd Hm out st'.
  pose proof (invoke_unrolled descriptors unroller st i d fuel m [] Hd Hm)
    as H.
  cbv zeta in H. rewrite app_nil_r in H.
  subst out st'. rewrite unroll_descriptors_eq in *. cbn [fst snd] in *.
  do 2 eexists. split; [apply unrolled_from_nth, Hd |].
  cbn [md_create]. split; [exact H |]. repeat split.
Qed.

(** The VanillaRNN descriptor unrolled with [hk.static_unroll]. *)
Lemma unrolled_module_unwraps_to_base_witness :
  exists d' m',
    nth_error (fst (unroll_descriptors RNN_CORES (Some static_unroll) [])) 3
    = Some d' /\
    invoke 2 (snd (unroll_descriptors RNN_CORES (Some static_unroll) []))
           (md_create d')
    = Some (m', snd (unroll_descriptors RNN_CORES (Some static_unroll) [])) /\
    isinstance_Wrapped m' = true /\
    wrap_depth m' = 1 /\
    unwrap m' = HkModule "VanillaRNN" [AInt 8].
Proof.
  exact (unrolled_module_unwraps_to_base
           RNN_CORES (Some static_unroll) [] 3
           (mkModuleDescriptor "VanillaRNN"
                               (Lambda0 (HkModule "VanillaRNN" [AInt 8]))
                               [BATCH_SIZE; 128] float32)
           1 (HkModule "VanillaRNN" [AInt 8]) eq_refl eq_refl).
Defined.

(** ** [unroll_descriptors] and the closure cells *)

Lemma unrolled_from_app (u : option Unroller) (a b : list ModuleDescriptor) :
  forall base,
    unrolled_from base u (a ++ b) =
    unrolled_from base u a ++ unrolled_from (base + 2 * List.length a) u b.
Proof.
  induction a as [| d a IH]; intros base; simpl.
  - now rewrite Nat.add_0_r.
  - rewrite IH. do 3 f_equal. lia.
Qed.

Lemma unrolled_cells_app (u : option Unroller) (a b : list ModuleDescriptor) :
  unrolled_cells u (a ++ b) = unrolled_cells u a ++ unrolled_cells u b.
Proof. unfold unrolled_cells. apply flat_map_app. Qed.

Lemma unrolled_cells_length (u : option Unroller)
      (ds : list ModuleDescriptor) :
  List.length (unrolled_cells u ds) = 2 * List.length ds.
Proof. induction ds; simpl in *; lia. Qed.

(** X4.  [unroll_descriptors] on no descriptor returns no descriptor and
    allocates nothing; on a concatenation it does what two calls in a
    row do, the second in the store that the first leaves. *)
Theorem unroll_descriptors_app
        (a b : list ModuleDescriptor) (unroller : option Unroller)
        (st : Store) :
  unroll_descriptors [] unroller st = ([], st) /\
  unroll_descriptors (a ++ b) unroller st =
  (fst (unroll_descriptors a unroller st)
     ++ fst (unroll_descriptors b unroller
                                (snd (unroll_descriptors a unroller st))),
   snd (unroll_descriptors b unroller
                           (snd (unroll_descriptors a unroller st)))).
Proof.
  split; [reflexivity |].
  rewrite !unroll_descriptors_eq. cbn [fst snd].
  rewrite unrolled_from_app, unrolled_cells_app, <- app_assoc.
  now rewrite length_app, unrolled_cells_length.
Qed.

(** X5.  [unroll_descriptors] only allocates: the store grows by two
    cells per descriptor, every cell that existed keeps its content, and
    every factory that could be called before the call builds the same
    module after it. *)
Theorem unroll_descriptors_frame
        (descriptors : list ModuleDescriptor) (unroller : option Unroller)
        (st : Store) :
  let st' := snd (unroll_descriptors descriptors unroller st) in
  List.length st' = List.length st + 2 * List.length descriptors /\
  firstn (List.length st) st' = st /\
  (forall i v, nth_error st i = Some v -> nth_error st' i = Some v) /\
  (forall fuel f m,
      invoke fuel st f = Some (m, st) -> invoke fuel st' f = Some (m, st')).
Proof.
  intros st'. subst st'. rewrite unroll_descriptors_eq. cbn [snd].
  repeat split.
  - now rewrite length_app, unrolled_cells_length.
  - rewrite firstn_app, Nat.sub_diag, firstn_all. simpl.
    now rewrite app_nil_r.
  - intros i v H. now apply nth_error_app_left.
  - intros fuel f m H. now apply (invoke_extend fuel st f m H fuel).
Qed.

Lemma string_length_append (a b : string) :
  String.length (a ++ b)%string = String.length a + String.length b.
Proof. induction a; simpl; auto. Qed.

Lemma append_cancel_r (s a b : string) :
  (a ++ s)%string = (b ++ s)%string -> a = b.
Proof.
  revert b; induction a as [| c a IH]; intros [| c' b] H.
  - reflexivity.
  - apply (f_equal String.length) in H.
    rewrite !string_length_append in H. simpl in H. lia.
  - apply (f_equal String.length) in H.
    rewrite !string_length_append in H. simpl in H. lia.
  - simpl in H. inversion H. f_equal. auto.
Qed.

(** For one strategy, the new name determines the base name. *)
Lemma recurrent_name_inj_name (u : option Unroller) (n1 n2 : string) :
  recurrent_name n1 u = recurrent_name n2 u -> n1 = n2.
Proof.
  unfold recurrent_name. destruct u as [u |]; intros H;
    apply (append_cancel_l "Recurrent(") in H;
    now apply append_cancel_r in H.
Qed.

Lemma unrolled_from_names (u : option Unroller) (ds : list ModuleDescriptor) :
  forall base,
    map md_name (unrolled_from base u ds) =
    map (fun d => recurrent_name (md_name d) u) ds.
Proof.
  induction ds as [| d ds IH]; intros base; simpl.
  - reflexivity.
  - now rewrite IH.
Qed.

(** X6.  Unrolling keeps names apart: if the base descriptors have
    pairwise different names, so have the unrolled descriptors, and two
    unrolled descriptors have the same name only if their base
    descriptors have. *)
Theorem unroll_descriptors_names_distinct
        (descriptors : list ModuleDescriptor) (unroller : option Unroller)
        (st : Store) :
  NoDup (map md_name descriptors) ->
  let out := fst (unroll_descriptors descriptors unroller st) in
  NoDup (map md_name out) /\
  (forall i j di dj bi bj,
      nth_error descriptors i = Some bi ->
      nth_error descriptors j = Some bj ->
      nth_error out i = Some di ->
      nth_error out j = Some dj ->
      md_name di = md_name dj -> md_name bi = md_name bj /\ i = j).
Proof.
  intros Hnd out. subst out. rewrite unroll_descriptors_eq. cbn [fst].
  split.
  - rewrite unrolled_from_names.
    induction descriptors as [| d ds IH]; simpl.
    + constructor.
    + inversion Hnd as [| n ns Hn Hns]; subst.
      constructor; [| now apply IH].
      intros Hin. apply in_map_iff in Hin as (d0 & Heq & Hd0).
      apply recurrent_name_inj_name in Heq.
      apply Hn. rewrite <- Heq. now apply in_map.
  - intros i j di dj bi bj Hi Hj Hdi Hdj Hname.
    rewrite (unrolled_from_nth unroller descriptors _ i bi Hi) in Hdi.
    rewrite (unrolled_from_nth unroller descriptors _ j bj Hj) in Hdj.
    inversion Hdi; inversion Hdj; subst di dj. cbn [md_name] in Hname.
    apply recurrent_name_inj_name in Hname. split; [exact Hname |].
    assert (Hi' : nth_error (map md_name descriptors) i = Some (md_name bi))
      by now apply map_nth_error.
    assert (Hj' : nth_error (map md_name descriptors) j = Some (md_name bj))
      by now apply map_nth_error.
    rewrite <- Hname in Hj'.
    eapply NoDup_nth_error; eauto.
    + apply nth_error_Some. congruence.
    + congruence.
Qed.

Lemma RNN_CORES_names_NoDup : NoDup (map md_name RNN_CORES).
Proof.
  cbn. repeat (constructor; [simpl; intuition discriminate |]). constructor.
Qed.

(** The four cores, unrolled without a strategy. *)
Lemma unroll_descriptors_names_distinct_witness :
  NoDup (map md_name (fst (unroll_descriptors RNN_CORES None []))) /\
  (forall i j di dj bi bj,
      nth_error RNN_CORES i = Some bi ->
      nth_error RNN_CORES j = Some bj ->
      nth_error (fst (unroll_descriptors RNN_CORES None [])) i = Some di ->
      nth_error (fst (unroll_descriptors RNN_CORES None [])) j = Some dj ->
      md_name di = md_name dj -> md_name bi = md_name bj /\ i = j).
Proof.
  exact (unroll_descriptors_names_distinct RNN_CORES None []
                                           RNN_CORES_names_NoDup).
Defined.

(** ** Calls of factories terminate *)

Lemma factory_wf_extend (st ext : Store) (n n' : nat) (f : Factory) :
  factory_wf st n f -> n <= n' -> factory_wf (st ++ ext) n' f.
Proof.
  destruct f as [body | c u]; simpl; [auto |].
  intros (Hc & Hu & [g Hg] & [un Hun]) Hle.
  repeat split; try lia.
  - exists g. now apply nth_error_app_left.
  - exists un. now apply nth_error_app_left.
Qed.

(** In a well-formed store, a factory whose cells lie below [n] can be
    called with depth [n + 1]. *)
Lemma invoke_wf (st : Store) :
  store_wf st ->
  forall n f, factory_wf st n f -> exists m, invoke (S n) st f = Some (m, st).
Proof.
  intros Hst n.
  induction n as [n IH] using (well_founded_induction lt_wf).
  intros [body | c u] Hf.
  - exists body. reflexivity.
  - destruct Hf as (Hc & Hu & [g Hg] & [un Hun]).
    destruct (IH c Hc g (Hst c g Hg)) as [m Hm].
    exists (Recurrent m un). cbn [invoke]. rewrite Hg, Hun.
    pose proof (invoke_extend (S c) st g m Hm n [] ltac:(lia)) as H.
    rewrite app_nil_r in H. now rewrite H.
Qed.

Lemma unrolled_cells_factory (u : option Unroller)
      (ds : list ModuleDescriptor) :
  forall k f,
    nth_error (unrolled_cells u ds) k = Some (CFactory f) ->
    exists d, In d ds /\ f = md_create d.
Proof.
  induction ds as [| d ds IH]; intros k f H.
  - destruct k; discriminate.
  - destruct k as [| [| k]]; simpl in H.
    + inversion H. exists d. split; [now left | reflexivity].
    + discriminate.
    + destruct (IH k f H) as (d0 & Hin & Heq).
      exists d0. split; [now right | exact Heq].
Qed.

(** X7.  The closure cells stay well founded.  If every factory kept in a
    cell refers to cells allocated before it, and so do the factories of
    the descriptors given to [unroll_descriptors], then the same holds of
    the store after the call, and every factory that the call returns
    can be called there: the call ends, builds a module and leaves the
    store as it is. *)
Theorem unroll_descriptors_store_wf
        (descriptors : list ModuleDescriptor) (unroller : option Unroller)
        (st : Store) :
  store_wf st ->
  Forall (fun d => factory_wf st (List.length st) (md_create d)) descriptors ->
  let out := fst (unroll_descriptors descriptors unroller st) in
  let st' := snd (unroll_descriptors descriptors unroller st) in
  store_wf st' /\
  Forall (fun d' =>
            factory_wf st' (List.length st') (md_create d') /\
            exists m, call_factory st' (md_create d') = Some (m, st'))
         out.
Proof.
  intros Hst Hds out st'.
  assert (Hwf : store_wf st').
  { subst st'. rewrite unroll_descriptors_eq. cbn [snd].
    intros i f Hi.
    destruct (Nat.lt_ge_cases i (List.length st)) as [Hlt | Hge].
    - rewrite nth_error_app1 in Hi by exact Hlt.
      apply factory_wf_extend with (n := i); [now apply Hst | lia].
    - rewrite nth_error_app2 in Hi by exact Hge.
      apply unrolled_cells_factory in Hi as (d & Hin & ->).
      rewrite Forall_forall in Hds.
      apply factory_wf_extend with (n := List.length st); [now apply Hds | lia]. }
  split; [exact Hwf |].
  assert (Hout : Forall (fun d' => factory_wf st' (List.length st')
                                              (md_create d')) out).
  { subst out st'. rewrite unroll_descriptors_eq. cbn [fst snd].
    apply Forall_forall. intros d' Hin.
    apply In_nth_error in Hin as [i Hi].
    assert (Hlen : i < List.length descriptors).
    { rewrite <- (unrolled_from_length (List.length st) unroller descriptors).
      apply nth_error_Some. congruence. }
    destruct (nth_error descriptors i) as [d |] eqn:Hd;
      [| apply nth_error_None in Hd; lia].
    rewrite (unrolled_from_nth unroller descriptors _ i d Hd) in Hi.
    inversion Hi; subst d'. cbn [md_create factory_wf].
    destruct (unrolled_cells_nth unroller descriptors i d Hd) as [Hc Hu].
    rewrite length_app, unrolled_cells_length.
    repeat split; try lia.
    - exists (md_create d). now rewrite nth_error_app_right.
    - exists unroller.
      rewrite <- Nat.add_succ_r. now rewrite nth_error_app_right. }
  apply Forall_forall. intros d' Hin.
  rewrite Forall_forall in Hout. split; [now apply Hout |].
  unfold call_factory. apply invoke_wf; [exact Hwf | now apply Hout].
Qed.

Lemma store_wf_nil : store_wf [].
Proof. intros [| i] f H; discriminate. Qed.

(** The four cores, unrolled from the empty store. *)
Lemma unroll_descriptors_store_wf_witness :
  store_wf (snd (unroll_descriptors RNN_CORES (Some dynamic_unroll) [])) /\
  Forall (fun d' =>
            factory_wf
              (snd (unroll_descriptors RNN_CORES (Some dynamic_unroll) []))
              (List.length
                 (snd (unroll_descriptors RNN_CORES (Some dynamic_unroll) [])))
              (md_create d') /\
            exists m,
              call_factory
                (snd (unroll_descriptors RNN_CORES (Some dynamic_unroll) []))
                (md_create d')
              = Some (m, snd (unroll_descriptors RNN_CORES
                                                 (Some dynamic_unroll) [])))
         (fst (unroll_descriptors RNN_CORES (Some dynamic_unroll) [])).
Proof.
  apply (unroll_descriptors_store_wf RNN_CORES (Some dynamic_unroll) []
                                     store_wf_nil).
  repeat constructor.
Defined.

(** ** Calling the adapters *)

(** A call of a [Recurrent] adapter, case by case. *)
Lemma Recurrent_call_cases (lib : Library) (w : Module)
      (u : option Unroller) (x : Array) :
  call_module lib (Recurrent w u) x =
  if has_initial_state w then
    match shape x with
    | [] => ([], inl (IndexError "index out of range"))
    | b :: rest =>
        match initial_state lib w b with
        | inl e => ([EvInitialState w b], inl e)
        | inr s0 =>
            let x' := mkArray (dtype x) (1 :: b :: rest) (data x) in
            match u with
            | None =>
                ([EvInitialState w b; EvExpandDims x 0],
                 inl (TypeError "'NoneType' object is not callable"))
            | Some un =>
                ([EvInitialState w b; EvExpandDims x 0;
                  EvUnroll un w x' s0],
                 match hk_unroll lib un w x' s0 with
                 | inl msg => inl (LibraryError msg)
                 | inr y => inr y
                 end)
            end
        end
    end
  else ([], inl (AttributeError (class_name w) "initial_state")).
Proof.
  cbn [call_module]. unfold Recurrent_call, lookup_initial_state.
  destruct (has_initial_state w); [| reflexivity].
  rewrite bind_ret. unfold getitem, expand_dims.
  destruct (shape x) as [| b rest]; [reflexivity |].
  cbn [nth_error List.length Nat.leb firstn skipn app].
  repeat mstep.
  destruct (initial_state lib w b) as [e | s0]; cbn [lift_exn];
    [reflexivity |].
  repeat mstep.
  destruct u as [un |]; [| reflexivity].
  repeat mstep. unfold prepend.
  match goal with
  | |- context [lift_lib ?r] => destruct r
  end; reflexivity.
Qed.

Lemma initial_state_has (lib : Library) (w : Module) (b : nat) (s0 : PyTree) :
  initial_state lib w b = inr s0 -> has_initial_state w = true.
Proof.
  destruct w; cbn [initial_state]; intros H; try reflexivity;
    try discriminate H.
  destruct (has_initial_state (HkModule cls args)); [reflexivity | discriminate H].
Qed.

(** C2.  With a strategy, a call of the adapter on an input of shape
    [b :: rest] does what is claimed: it asks the inner module for its
    initial state for the batch size [b], then expands the input with a
    leading axis of length one, then calls the strategy on the inner
    module, the expanded input and the initial state, and returns what
    the strategy returns.  Without a strategy, which is the default of
    [Recurrent.__init__] and which [unroll_descriptors] accepts and
    names, no call ever returns: after the same two steps the call
    raises [TypeError], where the one-step application of the inner
    module to the expanded input and the initial state is what is
    claimed.  So it is for [Recurrent(IdentityCore())] on an input of
    shape [(2, 3)], where the one-step application would return the pair
    of the expanded input and the initial state. *)
Theorem Recurrent_call_without_unroller
        (lib : Library) (w : Module) (x : Array) :
  (forall u b rest s0,
      shape x = b :: rest ->
      initial_state lib w b = inr s0 ->
      call_module lib (Recurrent w (Some u)) x =
      ([EvInitialState w b; EvExpandDims x 0;
        EvUnroll u w (mkArray (dtype x) (1 :: b :: rest) (data x)) s0],
       match hk_unroll lib u w (mkArray (dtype x) (1 :: b :: rest) (data x))
                       s0 with
       | inl msg => inl (LibraryError msg)
       | inr y => inr y
       end)) /\
  (exists e, outcome (call_module lib (Recurrent w None) x) = inl e) /\
  (forall b rest s0,
      shape x = b :: rest ->
      initial_state lib w b = inr s0 ->
      call_module lib (Recurrent w None) x =
      ([EvInitialState w b; EvExpandDims x 0],
       inl (TypeError "'NoneType' object is not callable")) /\
      Recurrent_call_as_specified lib w None x =
      prepend [EvInitialState w b; EvExpandDims x 0]
              (core_call lib w
                         (Leaf (mkArray (dtype x) (1 :: b :: rest) (data x)))
                         s0)) /\
  outcome (call_module demo_library (Recurrent IdentityCore None) demo_input)
  = inl (TypeError "'NoneType' object is not callable") /\
  outcome (Recurrent_call_as_specified demo_library IdentityCore None
                                       demo_input)
  = inr (Node KTuple
              [Leaf (mkArray float32 [1; 2; 3] [1; 2; 3; 4; 5; 6]%Z);
               Leaf (ones [2; 128; 1])]).
Proof.
  split; [| split; [| split; [| split]]].
  - intros u b rest s0 Hshape Hinit.
    rewrite Recurrent_call_cases, (initial_state_has lib w b s0 Hinit).
    now rewrite Hshape, Hinit.
  - rewrite Recurrent_call_cases.
    destruct (has_initial_state w); [| now eexists].
    destruct (shape x) as [| b rest]; [now eexists |].
    destruct (initial_state lib w b); now eexists.
  - intros b rest s0 Hshape Hinit. split.
    + rewrite Recurrent_call_cases, (initial_state_has lib w b s0 Hinit).
      now rewrite Hshape, Hinit.
    + unfold Recurrent_call_as_specified, lookup_initial_state.
      rewrite (initial_state_has lib w b s0 Hinit), bind_ret.
      unfold getitem, expand_dims. rewrite !Hshape.
      cbn [nth_error List.length Nat.leb firstn skipn app].
      repeat mstep. rewrite Hinit. cbn [lift_exn]. repeat mstep.
      reflexivity.
  - reflexivity.
  - reflexivity.
Qed.

(** X8.  [unroll_descriptors] accepts its own output: the names nest and
    the [i]-th factory builds [Recurrent] around [Recurrent] around the
    base module, which [unwrap] takes back to the terminal module of the
    base module.  But the module so built cannot be called: [Recurrent]
    declares no [initial_state], so every call raises [AttributeError]
    before the library is called at all. *)
Theorem unrolled_twice_cannot_be_called
        (lib : Library) (descriptors : list ModuleDescriptor)
        (u1 u2 : option Unroller) (st : Store) (i : nat)
        (d : ModuleDescriptor) (fuel : nat) (m : Module) (x : Array) :
  nth_error descriptors i = Some d ->
  invoke fuel st (md_create d) = Some (m, st) ->
  let r1 := unroll_descriptors descriptors u1 st in
  let r2 := unroll_descriptors (fst r1) u2 (snd r1) in
  exists d2,
    nth_error (fst r2) i = Some d2 /\
    md_name d2 = recurrent_name (recurrent_name (md_name d) u1) u2 /\
    md_shape d2 = md_shape d /\
    md_dtype d2 = md_dtype d /\
    invoke (S (S fuel)) (snd r2) (md_create d2)
    = Some (Recurrent (Recurrent m u1) u2, snd r2) /\
    unwrap (Recurrent (Recurrent m u1) u2) = unwrap m /\
    call_module lib (Recurrent (Recurrent m u1) u2) x
    = ([], inl (AttributeError "Recurrent" "initial_state")).
Proof.
  intros Hd Hm r1 r2.
  pose proof (invoke_unrolled descriptors u1 st i d fuel m [] Hd Hm) as H1.
  cbv zeta in H1. rewrite app_nil_r in H1.
  assert (Hd1 : nth_error (fst r1) i
                = Some (mkModuleDescriptor
                          (recurrent_name (md_name d) u1)
                          (RecurrentLambda (List.length st + 2 * i)
                                           (S (List.length st + 2 * i)))
                          (md_shape d) (md_dtype d))).
  { subst r1. rewrite unroll_descriptors_eq. cbn [fst].
    apply unrolled_from_nth, Hd. }
  fold r1 in H1.
  pose proof (invoke_unrolled (fst r1) u2 (snd r1) i _ (S fuel)
                              (Recurrent m u1) [] Hd1 H1) as H2.
  cbv zeta in H2. rewrite app_nil_r in H2. fold r2 in H2.
  eexists. split.
  - subst r2. rewrite (unroll_descriptors_eq (fst r1)). cbn [fst].
    apply unrolled_from_nth, Hd1.
  - cbn [md_name md_shape md_dtype md_create]. repeat split.
    exact H2.
Qed.

(** The GRU descriptor, unrolled dynamically and then statically. *)
Lemma unrolled_twice_cannot_be_called_witness :
  exists d2,
    nth_error
      (fst (unroll_descriptors
              (fst (unroll_descriptors RNN_CORES (Some dynamic_unroll) []))
              (Some static_unroll)
              (snd (unroll_descriptors RNN_CORES (Some dynamic_unroll) []))))
      1 = Some d2 /\
    md_name d2 = "Recurrent(Recurrent(GRU, dynamic_unroll), static_unroll)" /\
    md_shape d2 = [BATCH_SIZE; 128] /\
    md_dtype d2 = float32 /\
    invoke 3
      (snd (unroll_descriptors
              (fst (unroll_descriptors RNN_CORES (Some dynamic_unroll) []))
              (Some static_unroll)
              (snd (unroll_descriptors RNN_CORES (Some dynamic_unroll) []))))
      (md_create d2)
    = Some (Recurrent (Recurrent (HkModule "GRU" [AInt 1])
                                 (Some dynamic_unroll))
                      (Some static_unroll),
            snd (unroll_descriptors
                   (fst (unroll_descriptors RNN_CORES (Some dynamic_unroll) []))
                   (Some static_unroll)
                   (snd (unroll_descriptors RNN_CORES (Some dynamic_unroll)
                                            [])))) /\
    unwrap (Recurrent (Recurrent (HkModule "GRU" [AInt 1])
                                 (Some dynamic_unroll))
                      (Some static_unroll))
    = HkModule "GRU" [AInt 1] /\
    call_module demo_library
                (Recurrent (Recurrent (HkModule "GRU" [AInt 1])
                                      (Some dynamic_unroll))
                           (Some static_unroll))
                demo_input
    = ([], inl (AttributeError "Recurrent" "initial_state")).
Proof.
  exact (unrolled_twice_cannot_be_called
           demo_library RNN_CORES (Some dynamic_unroll) (Some static_unroll)
           [] 1
           (mkModuleDescriptor "GRU" (Lambda0 (HkModule "GRU" [AInt 1]))
                               [BATCH_SIZE; 128] float32)
           1 (HkModule "GRU" [AInt 1]) demo_input eq_refl eq_refl).
Defined.

(** X9.  The [Training] adapter makes exactly one call, of the module it
    wraps, with the same input and [is_training=True], and returns what
    that call returns or raises; this when the wrapped module is a module
    of the library.  Around a module of one of the classes that the file
    declares, whose [__call__] takes no such keyword, the call raises
    [TypeError] and the library is not called. *)
Theorem Training_call_spec (lib : Library) (w : Module) (x : Array) :
  (forall cls args,
      w = HkModule cls args ->
      call_module lib (Training w) x =
      ([EvCall w x (Some true)],
       match hk_call lib w x (Some true) with
       | inl msg => inl (LibraryError msg)
       | inr y => inr y
       end)) /\
  (forall core,
      w = HkResetCore core ->
      call_module lib (Training w) x =
      ([EvCall w x (Some true)],
       match hk_call lib w x (Some true) with
       | inl msg => inl (LibraryError msg)
       | inr y => inr y
       end)) /\
  (isinstance_Wrapped w = true \/ w = IdentityCore ->
   call_module lib (Training w) x =
   ([], inl (TypeError
               "__call__() got an unexpected keyword argument 'is_training'"))) /\
  Forall (fun ev => ev = EvCall w x (Some true))
         (trace (call_module lib (Training w) x)).
Proof.
  repeat split.
  - intros cls args ->. cbn [call_module Training_call].
    mstep. unfold prepend.
    destruct (hk_call lib (HkModule cls args) x (Some true)); reflexivity.
  - intros core ->. cbn [call_module Training_call].
    mstep. unfold prepend.
    destruct (hk_call lib (HkResetCore core) x (Some true)); reflexivity.
  - intros [H | ->]; [| reflexivity].
    destruct w; try discriminate; reflexivity.
  - destruct w; cbn [call_module Training_call];
      try (apply (@all_events_raise PyTree));
      mstep; unfold prepend;
      match goal with
      | |- context [lift_lib ?r] => destruct r
      end; repeat constructor.
Qed.

(** X10.  The edge cases of a call of the [Recurrent] adapter.  When the
    inner module has no [initial_state] ([Training], [Recurrent], or a
    module of the library that is not a recurrent core), the call raises
    [AttributeError] before anything else, whatever the input.  When it
    has, an input of rank zero raises [IndexError] before anything is
    called, and an exception of [initial_state] is the exception of the
    call, the input being then not expanded and the strategy not called.
    In every call [initial_state] is called at most once and the strategy
    at most once, and the strategy is called only if the adapter holds
    one and [initial_state] has returned. *)
Theorem Recurrent_call_edges
        (lib : Library) (w : Module) (u : option Unroller) (x : Array) :
  let run := call_module lib (Recurrent w u) x in
  (has_initial_state w = false ->
   run = ([], inl (AttributeError (class_name w) "initial_state"))) /\
  (has_initial_state w = true -> shape x = [] ->
   run = ([], inl (IndexError "index out of range"))) /\
  (forall b rest e,
      has_initial_state w = true -> shape x = b :: rest ->
      initial_state lib w b = inl e ->
      run = ([EvInitialState w b], inl e)) /\
  List.length (filter is_initial_state (trace run)) <= 1 /\
  List.length (filter is_unroll (trace run)) <= 1 /\
  (filter is_unroll (trace run) <> [] ->
   exists un b rest s0,
     u = Some un /\ shape x = b :: rest /\ initial_state lib w b = inr s0 /\
     trace run =
     [EvInitialState w b; EvExpandDims x 0;
      EvUnroll un w (mkArray (dtype x) (1 :: b :: rest) (data x)) s0]).
Proof.
  intros run. subst run. rewrite Recurrent_call_cases.
  split; [| split; [| split; [| split; [| split]]]].
  - intros ->. reflexivity.
  - intros -> ->. reflexivity.
  - intros b rest e -> -> ->. reflexivity.
  - destruct (has_initial_state w); [| cbn; lia].
    destruct (shape x) as [| b rest]; [cbn; lia |].
    destruct (initial_state lib w b); [cbn; lia |].
    destruct u; cbn; lia.
  - destruct (has_initial_state w); [| cbn; lia].
    destruct (shape x) as [| b rest]; [cbn; lia |].
    destruct (initial_state lib w b); [cbn; lia |].
    destruct u; cbn; lia.
  - destruct (has_initial_state w); [| cbn; congruence].
    destruct (shape x) as [| b rest]; [cbn; congruence |].
    destruct (initial_state lib w b) as [e | s0] eqn:E; [cbn; congruence |].
    destruct u as [un |]; [| cbn; congruence].
    intros _. exists un, b, rest, s0. repeat split. exact E.
Qed.

(** X11.  [ResetCoreAdapter.__call__] unpacks the shape of its inputs
    into two values.  On an array of rank two it calls the wrapped core
    once, on the pair of the inputs and a mask of the same shape that is
    true everywhere, with the state it was given; around [IdentityCore]
    the result is that pair with the state.  On an array of another rank
    it raises [ValueError], and on inputs that are not an array
    [AttributeError], without calling the wrapped core.  Hence two
    [ResetCoreAdapter]s cannot be stacked: the inner one is given a pair.
    [initial_state] is that of the wrapped core. *)
Theorem ResetCoreAdapter_call_spec
        (lib : Library) (w : Module) (a : Array) (state : PyTree) :
  (forall t b,
      shape a = [t; b] ->
      core_call lib (ResetCoreAdapter w) (Leaf a) state
      = core_call lib w (Node KTuple [Leaf a; Leaf (broadcast_true [t; b])])
                  state /\
      dtype (broadcast_true [t; b]) = bool_ /\
      shape (broadcast_true [t; b]) = shape a /\
      data (broadcast_true [t; b]) = repeat 1%Z (t * b)) /\
  (forall t b cls args,
      shape a = [t; b] -> w = HkModule cls args ->
      core_call lib (ResetCoreAdapter w) (Leaf a) state
      = ([EvCoreCall w (Node KTuple [Leaf a; Leaf (broadcast_true [t; b])])
                     state],
         match hk_core_call lib w
                            (Node KTuple
                                  [Leaf a; Leaf (broadcast_true [t; b])])
                            state with
         | inl msg => inl (LibraryError msg)
         | inr y => inr y
         end)) /\
  (forall t b,
      shape a = [t; b] -> w = IdentityCore ->
      core_call lib (ResetCoreAdapter w) (Leaf a) state
      = ([], inr (Node KTuple
                       [Node KTuple [Leaf a; Leaf (broadcast_true [t; b])];
                        state]))) /\
  (forall t b w',
      shape a = [t; b] -> w = ResetCoreAdapter w' ->
      core_call lib (ResetCoreAdapter w) (Leaf a) state
      = ([], inl (AttributeError "inputs" "shape"))) /\
  (List.length (shape a) <> 2 ->
   core_call lib (ResetCoreAdapter w) (Leaf a) state
   = ([], inl (ValueError "not enough or too many values to unpack"))) /\
  (forall k cs,
      core_call lib (ResetCoreAdapter w) (Node k cs) state
      = ([], inl (AttributeError "inputs" "shape"))) /\
  (forall b,
      initial_state lib (ResetCoreAdapter w) b = initial_state lib w b).
Proof.
  repeat split.
  - cbn [core_call]. now rewrite H.
  - now rewrite H.
  - unfold broadcast_true. cbn [data fold_right]. now rewrite Nat.mul_1_r.
  - intros t b cls args Hs ->. cbn [core_call]. rewrite Hs.
    mstep. unfold prepend.
    destruct (hk_core_call lib (HkModule cls args)
                           (Node KTuple [Leaf a; Leaf (broadcast_true [t; b])])
                           state); reflexivity.
  - intros t b Hs ->. cbn [core_call]. now rewrite Hs.
  - intros t b w' Hs ->. cbn [core_call]. now rewrite Hs.
  - intros Hlen. cbn [core_call].
    destruct (shape a) as [| t [| b [| c rest]]]; try reflexivity.
    simpl in Hlen. contradiction.
Qed.

(* ================================================================== *)
(** * Further properties of bfloat16_test.py                          *)
(* ================================================================== *)

(** The first event of a loop that has an iteration to make is the
    application of the module, to what the loop was given. *)
Lemma apply_loop_first (n : nat) (T : Transformed) (td : DType)
      (params state : PyTree) (rng x : Array) :
  exists rest,
    trace (apply_loop (S n) T td params state rng x)
    = EvApply params state rng x :: rest.
Proof.
  cbn [apply_loop]. unfold apply_call. do 2 mstep.
  unfold prepend. cbn [trace fst app]. eexists. reflexivity.
Qed.

(** How two iterations of the loop can end. *)
Lemma apply_loop_two_outcome (T : Transformed) (td : DType)
      (params state : PyTree) (rng x : Array) :
  let r := outcome (apply_loop 2 T td params state rng x) in
  r = inr tt \/
  (exists a, a <> int32 /\ a <> td /\ r = inl (AssertionError a td)) \/
  (exists msg,
      r = inl (LibraryError msg) /\
      (apply_fn T params state rng x = inl msg \/
       exists y1 s1,
         apply_fn T params state rng x = inr (y1, s1) /\
         apply_fn T params s1 rng x = inl msg)).
Proof.
  intros r. subst r.
  assert (Hbad : forall vs,
             forallb (leaf_ok td) vs = false ->
             exists a, a <> int32 /\ a <> td /\
                       outcome (forM_ vs (assert_dtype_leaf td))
                       = inl (AssertionError a td)).
  { intros vs Hvs.
    destruct (forM_assert_bad td vs Hvs) as (pre & v & post & _ & _ & Hv & Hf).
    apply leaf_ok_false in Hv as [Hv1 Hv2].
    exists (dtype v). rewrite Hf. now repeat split. }
  destruct (apply_fn T params state rng x) as [msg | [y1 s1]] eqn:E1.
  { right; right. exists msg. split; [| now left].
    cbn [apply_loop]. unfold apply_call. do 2 mstep. now rewrite E1. }
  rewrite (apply_loop_step 1 T td params state y1 s1 rng x E1).
  unfold prepend. cbn [outcome snd]. rewrite outcome_bind.
  destruct (forallb (leaf_ok td) (tree_leaves y1 ++ tree_leaves s1)) eqn:Hr1.
  2:{ right; left. destruct (Hbad _ Hr1) as (a & Ha1 & Ha2 & Hf).
      exists a. rewrite Hf. now repeat split. }
  rewrite (forM_assert_ok td _ Hr1). cbn [outcome snd].
  destruct (apply_fn T params s1 rng x) as [msg | [y2 s2]] eqn:E2.
  { right; right. exists msg. split; [| right; now exists y1, s1].
    cbn [apply_loop]. unfold apply_call. do 2 mstep. now rewrite E2. }
  rewrite (apply_loop_step 0 T td params s1 y2 s2 rng x E2).
  unfold prepend. cbn [outcome snd]. rewrite outcome_bind.
  destruct (forallb (leaf_ok td) (tree_leaves y2 ++ tree_leaves s2)) eqn:Hr2.
  2:{ right; left. destruct (Hbad _ Hr2) as (a & Ha1 & Ha2 & Hf).
      exists a. rewrite Hf. now repeat split. }
  left. now rewrite (forM_assert_ok td _ Hr2).
Qed.

(** The run when [init_fn] raises. *)
Lemma assert_dtype_init_fails (lib : Library) (env : Env) (td : DType)
      (module_fn : M Module) (shp : list nat) (msg : string) :
  platform (first_device env) = "tpu" ->
  let rng := PRNGKey lib 42 in
  let T := transform_with_state lib (g lib module_fn) in
  let x := random_uniform lib rng shp in
  init_fn T rng x = inl msg ->
  assert_dtype lib env td module_fn shp float32 =
  ([EvLocalDevices; EvPRNGKey 42; EvTransform; EvUniform rng shp;
    EvInit rng x], inl (LibraryError msg)).
Proof.
  intros Hp rng T x Hinit.
  unfold assert_dtype, local_devices, getitem.
  do 3 mstep. cbn [nth_error]. mstep.
  rewrite Hp, String.eqb_refl. cbn [negb DType_eqb].
  unfold PRNGKey_call, transform_call, uniform_call, init_call.
  do 3 mstep. fold rng. do 4 mstep. fold T. do 4 mstep. fold x.
  do 3 mstep. rewrite Hinit. reflexivity.
Qed.

(** X12.  How a run of [assert_dtype] can end, whatever [init_fn] and
    [apply_fn] do: it passes; or it is skipped, with one of the two
    reasons, the first when the platform is not the TPU and the second
    when it is and the input dtype is not float32; or it fails on a dtype
    that is neither int32 nor the test dtype, compared with the test
    dtype; or it ends with the exception with which [init_fn], the first
    [apply_fn] or, after a first round that passed its assertions, the
    second [apply_fn] has ended, on the arguments that the run gives
    them.  These three calls are the ones that run [g], and so the
    module: an exception of the module leaves the run through them.  The
    steps of [assert_dtype] outside these calls raise nothing but the
    skips and the assertion error: the first device always exists and
    the cast structure is always unpacked into two. *)
Theorem assert_dtype_outcomes
        (lib : Library) (env : Env) (test_dtype : DType)
        (module_fn : M Module) (shp : list nat) (input_dtype : DType) :
  let r := outcome (assert_dtype lib env test_dtype module_fn shp
                                 input_dtype) in
  let rng := PRNGKey lib 42 in
  let T := transform_with_state lib (g lib module_fn) in
  let x0 := random_uniform lib rng shp in
  let x := astype lib x0 test_dtype in
  r = inr tt \/
  (platform (first_device env) <> "tpu" /\
   r = inl (SkipTest "bfloat16 only supported on TPU")) \/
  (platform (first_device env) = "tpu" /\ input_dtype <> float32 /\
   r = inl (SkipTest "Skipping module without float32 input")) \/
  (exists a,
      a <> int32 /\ a <> test_dtype /\
      r = inl (AssertionError a test_dtype)) \/
  (exists msg,
      r = inl (LibraryError msg) /\
      platform (first_device env) = "tpu" /\ input_dtype = float32 /\
      (init_fn T rng x0 = inl msg \/
       exists params state,
         init_fn T rng x0 = inr (params, state) /\
         let params' := tree_map (cast_f32 lib test_dtype) params in
         let state' := tree_map (cast_f32 lib test_dtype) state in
         (apply_fn T params' state' rng x = inl msg \/
          exists y1 s1,
            apply_fn T params' state' rng x = inr (y1, s1) /\
            forallb (leaf_ok test_dtype) (tree_leaves y1 ++ tree_leaves s1)
            = true /\
            apply_fn T params' s1 rng x = inl msg))).
Proof.
  intros r rng T x0 x. subst r.
  destruct (String.eqb_spec (platform (first_device env)) "tpu") as [Hp | Hp].
  2:{ right; left. split; [exact Hp |]. now rewrite assert_dtype_not_tpu. }
  destruct (DType_eqb_spec input_dtype float32) as [Hd | Hd].
  2:{ right; right; left. split; [exact Hp |]. split; [exact Hd |].
      now rewrite assert_dtype_not_float32. }
  subst input_dtype.
  destruct (init_fn T rng x0) as [msg | [params state]] eqn:Hinit.
  { right; right; right; right. exists msg.
    rewrite (assert_dtype_init_fails lib env test_dtype module_fn shp msg
                                     Hp Hinit).
    repeat split; auto. }
  rewrite (assert_dtype_run lib env test_dtype module_fn shp params state
                            Hp Hinit).
  unfold prepend. cbn [outcome snd]. fold rng T x0 x.
  set (params' := tree_map (cast_f32 lib test_dtype) params).
  set (state' := tree_map (cast_f32 lib test_dtype) state).
  destruct (apply_fn T params' state' rng x) as [msg | [y1 s1]] eqn:E1.
  { right; right; right; right. exists msg.
    split; [| split; [exact Hp | split; [reflexivity |]]].
    - cbn [apply_loop]. unfold apply_call. do 2 mstep. now rewrite E1.
    - right. exists params, state. split; [reflexivity |]. now left. }
  destruct (forallb (leaf_ok test_dtype) (tree_leaves y1 ++ tree_leaves s1))
    eqn:Hr1.
  2:{ right; right; right; left.
      rewrite (apply_loop_step 1 T test_dtype params' state' y1 s1 rng x E1).
      unfold prepend. cbn [outcome snd]. rewrite outcome_bind.
      destruct (forM_assert_bad test_dtype _ Hr1)
        as (pre & v & post & _ & _ & Hv & Hf).
      apply leaf_ok_false in Hv as [Hv1 Hv2].
      exists (dtype v). rewrite Hf. now repeat split. }
  destruct (apply_loop_two_outcome T test_dtype params' state' rng x)
    as [H | [(a & Ha1 & Ha2 & H) | (msg & H & Hwhere)]].
  - now left.
  - right; right; right; left. now exists a.
  - right; right; right; right. exists msg.
    split; [exact H | split; [exact Hp | split; [reflexivity |]]].
    right. exists params, state. split; [reflexivity |].
    destruct Hwhere as [Hw | (y1' & s1' & Hw1 & Hw2)].
    + now left.
    + right. rewrite E1 in Hw1. inversion Hw1; subst y1' s1'.
      exists y1, s1. now repeat split.
Qed.

Lemma filter_all_false {A : Type} (f : Event -> bool) (m : M A) :
  all_events (fun ev => f ev = false) m -> filter f (trace m) = [].
Proof.
  unfold all_events. induction 1 as [| ev t Hev _ IH]; simpl.
  - reflexivity.
  - now rewrite Hev.
Qed.

Lemma filter_casts_of (f : Event -> bool) (td : DType) (vs : list Array) :
  (forall v d, f (EvAstype v d) = false) -> filter f (casts_of td vs) = [].
Proof.
  intros Hf. unfold casts_of.
  induction (filter (fun v => DType_eqb (dtype v) float32) vs) as [| v l IH];
    simpl; [reflexivity |]. now rewrite Hf.
Qed.

Lemma forM_assert_filter (f : Event -> bool) (td : DType) (vs : list Array) :
  (forall a b, f (EvAssertEqual a b) = false) ->
  filter f (trace (forM_ vs (assert_dtype_leaf td))) = [].
Proof.
  intros Hf. apply filter_all_false, all_events_forM_.
  intros v _. apply assert_dtype_leaf_events. intros a _. apply Hf.
Qed.

(** The loop applies the module at most as many times as it has
    iterations. *)
Lemma apply_loop_count (n : nat) (T : Transformed) (td : DType)
      (params : PyTree) (rng x : Array) :
  forall state,
    List.length
      (filter is_apply (trace (apply_loop n T td params state rng x))) <= n.
Proof.
  induction n as [| n IH]; intros state.
  - cbn. lia.
  - destruct (apply_fn T params state rng x) as [msg | [y state']] eqn:E.
    + cbn [apply_loop]. unfold apply_call. do 2 mstep. rewrite E.
      cbn. lia.
    + rewrite (apply_loop_step n T td params state y state' rng x E).
      unfold prepend. cbn [trace fst]. rewrite trace_bind.
      rewrite !filter_app, forM_assert_filter by reflexivity.
      cbn [filter is_apply app List.length].
      destruct (outcome (forM_ (tree_leaves y ++ tree_leaves state')
                               (assert_dtype_leaf td))) as [e | []].
      * cbn. lia.
      * specialize (IH state'). lia.
Qed.

Lemma apply_loop_no_init (lib : Library) (n : nat) (T : Transformed)
      (td : DType) (params state : PyTree) (x : Array) :
  filter is_init
         (trace (apply_loop n T td params state (PRNGKey lib 42) x)) = [].
Proof.
  apply filter_all_false.
  apply (apply_loop_events lib td); reflexivity.
Qed.

(** X13.  A run of [assert_dtype] initialises the module at most once
    and applies it at most twice, whatever the library does.  A run
    without an initialisation makes no cast, no application and no
    assertion.  When [init_fn] raises, the run ends there with that
    exception: nothing is cast and the module is never applied.  When
    the first application raises, the run ends there with that
    exception, after one application and before any assertion. *)
Theorem assert_dtype_call_bounds
        (lib : Library) (env : Env) (test_dtype : DType)
        (module_fn : M Module) (shp : list nat) (input_dtype : DType) :
  let run := assert_dtype lib env test_dtype module_fn shp input_dtype in
  let rng := PRNGKey lib 42 in
  let T := transform_with_state lib (g lib module_fn) in
  let x0 := random_uniform lib rng shp in
  List.length (filter is_init (trace run)) <= 1 /\
  List.length (filter is_apply (trace run)) <= 2 /\
  (filter is_init (trace run) = [] ->
   filter is_cast_or_assert (trace run) = [] /\
   filter is_apply (trace run) = []) /\
  (forall msg,
      platform (first_device env) = "tpu" -> input_dtype = float32 ->
      init_fn T rng x0 = inl msg ->
      run = ([EvLocalDevices; EvPRNGKey 42; EvTransform; EvUniform rng shp;
              EvInit rng x0], inl (LibraryError msg))) /\
  (forall params state msg,
      platform (first_device env) = "tpu" -> input_dtype = float32 ->
      init_fn T rng x0 = inr (params, state) ->
      apply_fn T (tree_map (cast_f32 lib test_dtype) params)
               (tree_map (cast_f32 lib test_dtype) state)
               rng (astype lib x0 test_dtype) = inl msg ->
      run = ([EvLocalDevices; EvPRNGKey 42; EvTransform; EvUniform rng shp;
              EvInit rng x0]
               ++ casts_of test_dtype (tree_leaves params ++ tree_leaves state)
               ++ [EvAstype x0 test_dtype;
                   EvApply (tree_map (cast_f32 lib test_dtype) params)
                           (tree_map (cast_f32 lib test_dtype) state)
                           rng (astype lib x0 test_dtype)],
             inl (LibraryError msg))).
Proof.
  intros run rng T x0.
  assert (Hcases :
            run = ([EvLocalDevices], outcome run) \/
            (exists msg,
                run = ([EvLocalDevices; EvPRNGKey 42; EvTransform;
                        EvUniform rng shp; EvInit rng x0],
                       inl (LibraryError msg))) \/
            (exists params state,
                input_dtype = float32 /\
                run = prepend
                        ([EvLocalDevices; EvPRNGKey 42; EvTransform;
                          EvUniform rng shp; EvInit rng x0]
                           ++ casts_of test_dtype
                                       (tree_leaves params ++ tree_leaves state)
                           ++ [EvAstype x0 test_dtype])
                        (apply_loop 2 T test_dtype
                                    (tree_map (cast_f32 lib test_dtype) params)
                                    (tree_map (cast_f32 lib test_dtype) state)
                                    rng (astype lib x0 test_dtype)))).
  { subst run.
    destruct (String.eqb_spec (platform (first_device env)) "tpu") as [Hp | Hp].
    2:{ left. now rewrite assert_dtype_not_tpu. }
    destruct (DType_eqb_spec input_dtype float32) as [Hd | Hd].
    2:{ left. now rewrite assert_dtype_not_float32. }
    subst input_dtype. right.
    destruct (init_fn T rng x0) as [msg | [params state]] eqn:Hinit.
    - left. exists msg. now apply assert_dtype_init_fails.
    - right. exists params, state. split; [reflexivity |].
      now apply assert_dtype_run. }
  split; [| split; [| split; [| split]]].
  - destruct Hcases as [H | [[msg H] | (params & state & _ & H)]];
      rewrite H; [cbn; lia | cbn; lia |].
    unfold prepend. cbn [trace fst].
    rewrite !filter_app, (filter_casts_of is_init) by reflexivity.
    subst rng. rewrite apply_loop_no_init. cbn. lia.
  - destruct Hcases as [H | [[msg H] | (params & state & _ & H)]];
      rewrite H; [cbn; lia | cbn; lia |].
    unfold prepend. cbn [trace fst].
    rewrite filter_app, (filter_is_apply_prefix lib). cbn [app].
    apply apply_loop_count.
  - destruct Hcases as [H | [[msg H] | (params & state & _ & H)]];
      rewrite H; [cbn; intros _; now split | cbn; discriminate |].
    unfold prepend. cbn [trace fst]. intros Hno. exfalso.
    rewrite !filter_app in Hno. cbn in Hno. discriminate.
  - intros msg Hp -> Hinit. subst run.
    now apply assert_dtype_init_fails.
  - intros params state msg Hp -> Hinit Happly. subst run.
    rewrite (assert_dtype_run lib env test_dtype module_fn shp params state
                              Hp Hinit).
    cbn [apply_loop]. unfold apply_call. do 2 mstep. fold rng T x0.
    rewrite Happly. unfold prepend. cbn [lift_lib raise trace outcome fst snd].
    rewrite app_nil_r, <- !app_assoc. reflexivity.
Qed.

Lemma tree_map_fixed (f : Array -> Array) (t : PyTree) :
  Forall (fun v => f v = v) (tree_leaves t) -> tree_map f t = t.
Proof.
  induction t as [v | k cs IH] using PyTree_nested_ind; cbn [tree_leaves tree_map].
  - intros H. inversion H; subst. now f_equal.
  - intros H. f_equal.
    induction IH as [| c cs Hc _ IHcs]; [reflexivity |].
    cbn [flat_map map] in *. apply Forall_app in H as [H1 H2].
    now rewrite Hc, IHcs.
Qed.

Lemma cast_f32_not_float32 (lib : Library) (td : DType) (v : Array) :
  td <> float32 -> dtype (cast_f32 lib td v) <> float32.
Proof.
  intros Htd. unfold cast_f32.
  destruct (DType_eqb_spec (dtype v) float32) as [E | E]; [exact Htd | exact E].
Qed.

(** X14.  When the test dtype is not float32, the cast of line 60 leaves
    no float32 leaf behind: every leaf of the result has another dtype,
    with the shape it had.  Casting the result again does nothing: no
    cast is performed and the same tree comes back. *)
Theorem cast_leaves_no_float32
        (lib : Library) (test_dtype : DType) (t : PyTree) :
  test_dtype <> float32 ->
  exists t',
    outcome (tree_mapM (f32_to_test_dtype lib test_dtype) t) = inr t' /\
    treedef t' = treedef t /\
    Forall (fun v => dtype v <> float32) (tree_leaves t') /\
    map shape (tree_leaves t') = map shape (tree_leaves t) /\
    tree_mapM (f32_to_test_dtype lib test_dtype) t' = ([], inr t').
Proof.
  intros Htd.
  exists (tree_map (cast_f32 lib test_dtype) t).
  assert (Hno : Forall (fun v => dtype v <> float32)
                       (tree_leaves (tree_map (cast_f32 lib test_dtype) t))).
  { rewrite tree_map_leaves. apply Forall_map, Forall_forall.
    intros v _. now apply cast_f32_not_float32. }
  split; [now rewrite tree_mapM_cast |].
  split; [apply tree_map_treedef |].
  split; [exact Hno |].
  split.
  - rewrite tree_map_leaves, map_map. apply map_ext.
    intros v. unfold cast_f32. now destruct (DType_eqb (dtype v) float32).
  - rewrite tree_mapM_cast. f_equal.
    + unfold casts_of.
      induction Hno as [| v vs Hv _ IH]; [reflexivity |].
      cbn [filter]. apply DType_eqb_neq in Hv. now rewrite Hv.
    + f_equal. apply tree_map_fixed.
      eapply Forall_impl; [| exact Hno].
      intros v Hv. unfold cast_f32. apply DType_eqb_neq in Hv.
      now rewrite Hv.
Qed.

(** The state of the demonstration library, cast to bfloat16. *)
Lemma cast_leaves_no_float32_witness :
  exists t',
    outcome (tree_mapM (f32_to_test_dtype demo_library bfloat16) demo_state)
    = inr t' /\
    treedef t' = treedef demo_state /\
    Forall (fun v => dtype v <> float32) (tree_leaves t') /\
    map shape (tree_leaves t') = map shape (tree_leaves demo_state) /\
    tree_mapM (f32_to_test_dtype demo_library bfloat16) t' = ([], inr t').
Proof.
  apply (cast_leaves_no_float32 demo_library bfloat16 demo_state).
  discriminate.
Defined.

(** X15.  The module of every descriptor of [RECURRENT_MODULES] is a
    [Recurrent] adapter that holds a strategy.  Called on an input of
    the descriptor's shape, it asks its core for the initial state once,
    for the batch size [BATCH_SIZE], and if it calls the strategy, then
    on an input of shape [(1, BATCH_SIZE, 128)] with the elements of the
    input. *)
Theorem RECURRENT_MODULES_call
        (lib : Library) (d : ModuleDescriptor) (m : Module) (x : Array) :
  In d RECURRENT_MODULES ->
  call_factory descriptors_store (md_create d) = Some (m, descriptors_store) ->
  shape x = md_shape d ->
  exists w u,
    m = Recurrent w (Some u) /\
    filter is_initial_state (trace (call_module lib m x))
    = [EvInitialState w BATCH_SIZE] /\
    Forall (fun ev =>
              is_unroll ev = true ->
              exists s,
                ev = EvUnroll u w
                              (mkArray (dtype x) [1; BATCH_SIZE; 128] (data x))
                              s)
           (trace (call_module lib m x)).
Proof.
  intros Hin Hm Hshape. cbn in Hin.
  repeat (destruct Hin as [<- | Hin];
          [ cbn in Hm; inversion Hm; subst m; clear Hm;
            do 2 eexists; split; [reflexivity |];
            rewrite Recurrent_call_cases, Hshape;
            cbn [md_shape class_name];
            match goal with
            | |- context [initial_state lib ?c ?b] =>
                destruct (initial_state lib c b) as [e | s0]
            end;
            [ split; [reflexivity | repeat constructor; discriminate]
            | split;
              [ reflexivity
              | repeat constructor; try discriminate;
                intros _; now exists s0 ] ] |]).
  destruct Hin.
Qed.

(** The GRU descriptor unrolled with [hk.dynamic_unroll], on zeros. *)
Lemma RECURRENT_MODULES_call_witness :
  exists w u,
    Recurrent (HkModule "GRU" [AInt 1]) (Some dynamic_unroll)
    = Recurrent w (Some u) /\
    filter is_initial_state
           (trace (call_module demo_library
                               (Recurrent (HkModule "GRU" [AInt 1])
                                          (Some dynamic_unroll))
                               (mkArray float32 [BATCH_SIZE; 128] [])))
    = [EvInitialState w BATCH_SIZE] /\
    Forall (fun ev =>
              is_unroll ev = true ->
              exists s,
                ev = EvUnroll u w
                              (mkArray float32 [1; BATCH_SIZE; 128] []) s)
           (trace (call_module demo_library
                               (Recurrent (HkModule "GRU" [AInt 1])
                                          (Some dynamic_unroll))
                               (mkArray float32 [BATCH_SIZE; 128] []))).
Proof.
  apply (RECURRENT_MODULES_call
           demo_library
           (mkModuleDescriptor "Recurrent(GRU, dynamic_unroll)"
                               (RecurrentLambda 2 3) [BATCH_SIZE; 128] float32)
           (Recurrent (HkModule "GRU" [AInt 1]) (Some dynamic_unroll))
           (mkArray float32 [BATCH_SIZE; 128] [])).
  - in_list.
  - reflexivity.
  - reflexivity.
Defined.

(** On the TPU a run of the test on a descriptor is skipped exactly when
    the dtype of the descriptor is not float32. *)
Lemma run_descriptor_skip_tpu (lib : Library) (env : Env)
      (d : ModuleDescriptor) :
  platform (first_device env) = "tpu" ->
  ((exists reason, outcome (run_descriptor lib env d) = inl (SkipTest reason))
   <-> md_dtype d <> float32).
Proof.
  intros Hp. unfold run_descriptor, test_bfloat16. split.
  - intros [reason Hr] Hd.
    assert (HQ : raises_only
                   (fun e => forall r, e <> SkipTest r)
                   (assert_dtype lib env bfloat16
                                 (module_fn_of descriptors_store (md_create d))
                                 (md_shape d) (md_dtype d))).
    { apply assert_dtype_raises; intros; try discriminate; contradiction. }
    exact (HQ _ Hr reason eq_refl).
  - intros Hd. eexists.
    now rewrite assert_dtype_not_float32.
Qed.

(** X16.  The registry is consistent.  Its 29 descriptors have pairwise
    different names; every shape starts with [BATCH_SIZE]; and whenever
    a factory of the registry, called in the store of the imported
    module, builds a module, the class of the terminal module under its
    adapters is none of [IGNORED_MODULES].  Whether the library lets the
    module be built where the factory is called is not part of this. *)
Theorem registry_consistent :
  List.length registry = 29 /\
  NoDup (map md_name registry) /\
  Forall (fun d => exists rest, md_shape d = BATCH_SIZE :: rest) registry /\
  Forall (fun d =>
            forall m st',
              call_factory descriptors_store (md_create d) = Some (m, st') ->
              ~ In (class_name (unwrap m)) IGNORED_MODULES)
         registry.
Proof.
  split; [reflexivity |].
  split.
  { cbn. repeat (constructor; [simpl; intuition discriminate |]). constructor. }
  split.
  - cbn. repeat (constructor; [eexists; reflexivity |]). constructor.
  - cbn.
    repeat (constructor;
            [intros m st' H; injection H as <- _;
             simpl; intuition discriminate |]).
    constructor.
Qed.

(** X17.  On the TPU, the test is skipped for the Embed descriptor and
    for no other descriptor of the registry: every other descriptor goes
    through initialisation, cast and application. *)
Theorem registry_skipped_on_tpu
        (lib : Library) (env : Env) (d : ModuleDescriptor) :
  platform (first_device env) = "tpu" ->
  In d registry ->
  ((exists reason, outcome (run_descriptor lib env d) = inl (SkipTest reason))
   <-> md_name d = "Embed") /\
  (md_name d <> "Embed" ->
   filter is_init (trace (run_descriptor lib env d))
   = [EvInit (PRNGKey lib 42)
             (random_uniform lib (PRNGKey lib 42) (md_shape d))]).
Proof.
  intros Hp Hin.
  assert (Hname : md_dtype d <> float32 <-> md_name d = "Embed").
  { cbn in Hin.
    repeat (destruct Hin as [<- | Hin];
            [cbn; split; intros H; try reflexivity; try discriminate;
             exfalso; now apply H |]).
    destruct Hin. }
  split.
  - rewrite (run_descriptor_skip_tpu lib env d Hp). exact Hname.
  - intros Hne.
    assert (Hd : md_dtype d = float32).
    { destruct (DType_eqb_spec (md_dtype d) float32) as [E | E]; [exact E |].
      apply Hname in E. contradiction. }
    unfold run_descriptor, test_bfloat16. rewrite Hd.
    destruct (init_fn (transform_with_state
                         lib (g lib (module_fn_of descriptors_store
                                                  (md_create d))))
                      (PRNGKey lib 42)
                      (random_uniform lib (PRNGKey lib 42) (md_shape d)))
      as [msg | [params state]] eqn:Hinit.
    + now rewrite (assert_dtype_init_fails lib env bfloat16 _ _ msg Hp Hinit).
    + rewrite (assert_dtype_run lib env bfloat16 _ _ params state Hp Hinit).
      unfold prepend. cbn [trace fst].
      rewrite !filter_app, (filter_casts_of is_init) by reflexivity.
      rewrite apply_loop_no_init. reflexivity.
Qed.

(** The Linear descriptor on the TPU. *)
Lemma registry_skipped_on_tpu_witness :
  ((exists reason,
       outcome (run_descriptor
                  demo_library tpu_env
                  (mkModuleDescriptor "Linear"
                                      (Lambda0 (HkModule "Linear" [AInt 10]))
                                      [BATCH_SIZE; 1] float32))
       = inl (SkipTest reason))
   <-> "Linear" = "Embed") /\
  ("Linear" <> "Embed" ->
   filter is_init
          (trace (run_descriptor
                    demo_library tpu_env
                    (mkModuleDescriptor "Linear"
                                        (Lambda0 (HkModule "Linear" [AInt 10]))
                                        [BATCH_SIZE; 1] float32)))
   = [EvInit (PRNGKey demo_library 42)
             (random_uniform demo_library (PRNGKey demo_library 42)
                             [BATCH_SIZE; 1])]).
Proof.
  apply (registry_skipped_on_tpu
           demo_library tpu_env
           (mkModuleDescriptor "Linear"
                               (Lambda0 (HkModule "Linear" [AInt 10]))
                               [BATCH_SIZE; 1] float32)).
  - reflexivity.
  - in_list.
Defined.

(* ================================================================== *)
(** * Further properties: calls, cores and names                      *)
(* ================================================================== *)



Lemma initial_state_ResetCoreAdapter_iter (lib : Library) (n b : nat)
      (core : Module) :
  initial_state lib (Nat.iter n ResetCoreAdapter core) b
  = initial_state lib core b.
Proof. induction n; simpl; auto. Qed.

(** X19.  The initial state of [IdentityCore], also behind any number of
    [ResetCoreAdapter]s, is one float32 array of shape
    [(batch_size, 128, 1)] with [batch_size * 128] elements, all equal,
    and the library is not asked.  For the batch size zero the array is
    empty. *)
Theorem IdentityCore_initial_state (lib : Library) (n batch_size : nat) :
  exists a,
    initial_state lib (Nat.iter n ResetCoreAdapter IdentityCore) batch_size
    = inr (Leaf a) /\
    dtype a = float32 /\
    shape a = [batch_size; 128; 1] /\
    List.length (data a) = batch_size * 128 /\
    Forall (fun z => z = float32_one) (data a) /\
    (batch_size = 0 -> data a = []).
Proof.
  exists (ones [batch_size; 128; 1]).
  rewrite initial_state_ResetCoreAdapter_iter.
  split; [reflexivity |]. split; [reflexivity |]. split; [reflexivity |].
  unfold ones. cbn [data fold_right].
  replace (batch_size * (128 * (1 * 1))) with (batch_size * 128) by lia.
  split; [apply repeat_length |].
  split.
  - apply Forall_forall. intros z Hz. now apply repeat_spec in Hz.
  - intros ->. reflexivity.
Qed.

Lemma string_append_assoc (a b c : string) :
  ((a ++ b) ++ c)%string = (a ++ (b ++ c))%string.
Proof. induction a as [| ch a IH]; simpl; [reflexivity | now rewrite IH]. Qed.

(** X20.  When names collide across strategies.  A descriptor unrolled
    without a strategy and one unrolled with a strategy have the same
    name exactly when the base name of the first is the base name of the
    second followed by a comma, a space and the name of the strategy.
    With one base name for both this never happens. *)
Theorem recurrent_name_collision (n1 n2 : string) (u : Unroller) :
  (recurrent_name n1 None = recurrent_name n2 (Some u) <->
   n1 = (n2 ++ ", " ++ Unroller_name u)%string) /\
  recurrent_name n1 None <> recurrent_name n1 (Some u) /\
  recurrent_name "GRU, static_unroll" None
  = recurrent_name "GRU" (Some static_unroll).
Proof.
  split; [| split].
  - unfold recurrent_name. split.
    + intros H. apply (append_cancel_l "Recurrent(") in H.
      rewrite <- !string_append_assoc in H.
      apply append_cancel_r in H.
      now rewrite string_append_assoc in H.
    + intros ->. now rewrite !string_append_assoc.
  - intros H. apply recurrent_name_inj in H. discriminate.
  - reflexivity.
Qed.


(* ================================================================== *)
(** * The test of bfloat16_test.py, from the seed to the verdict      *)
(* ================================================================== *)

Lemma apply_loop_no_seed (lib : Library) (n : nat) (T : Transformed)
      (td : DType) (params state : PyTree) (x : Array) :
  filter is_seed
         (trace (apply_loop n T td params state (PRNGKey lib 42) x)) = [].
Proof.
  apply filter_all_false.
  apply (apply_loop_events lib td); reflexivity.
Qed.

(** A run that is not skipped starts with the key of seed 42, the
    transformation of [g], the sample of the declared shape under that
    key and the initialisation on the sample, and asks for no other
    key. *)
Lemma assert_dtype_setup (lib : Library) (env : Env) (td : DType)
      (module_fn : M Module) (shp : list nat) :
  platform (first_device env) = "tpu" ->
  let rng := PRNGKey lib 42 in
  let x0 := random_uniform lib rng shp in
  exists rest,
    trace (assert_dtype lib env td module_fn shp float32)
    = [EvLocalDevices; EvPRNGKey 42; EvTransform; EvUniform rng shp;
       EvInit rng x0] ++ rest /\
    filter is_seed rest = [].
Proof.
  intros Hp rng x0.
  destruct (init_fn (transform_with_state lib (g lib module_fn)) rng x0)
    as [msg | [params state]] eqn:Hinit.
  - rewrite (assert_dtype_init_fails lib env td module_fn shp msg Hp Hinit).
    exists []. split; reflexivity.
  - rewrite (assert_dtype_run lib env td module_fn shp params state Hp Hinit).
    unfold prepend. cbn [trace fst]. rewrite <- app_assoc.
    eexists. split; [reflexivity |].
    rewrite !filter_app, (filter_casts_of is_seed) by reflexivity.
    subst rng. rewrite apply_loop_no_seed. reflexivity.
Qed.

(** When [init_fn] returns, the run goes on with the casts of the
    float32 leaves of what it returned, the cast of the sample, and the
    first application, to the cast parameters, the cast state, the same
    key and the cast sample. *)
Lemma assert_dtype_first_apply (lib : Library) (env : Env) (td : DType)
      (module_fn : M Module) (shp : list nat) (params state : PyTree) :
  platform (first_device env) = "tpu" ->
  let rng := PRNGKey lib 42 in
  let T := transform_with_state lib (g lib module_fn) in
  let x0 := random_uniform lib rng shp in
  init_fn T rng x0 = inr (params, state) ->
  exists rest,
    trace (assert_dtype lib env td module_fn shp float32)
    = [EvLocalDevices; EvPRNGKey 42; EvTransform; EvUniform rng shp;
       EvInit rng x0]
        ++ casts_of td (tree_leaves params ++ tree_leaves state)
        ++ [EvAstype x0 td;
            EvApply (tree_map (cast_f32 lib td) params)
                    (tree_map (cast_f32 lib td) state)
                    rng (astype lib x0 td)]
        ++ rest.
Proof.
  intros Hp rng T x0 Hinit.
  rewrite (assert_dtype_run lib env td module_fn shp params state Hp Hinit).
  fold rng T x0.
  destruct (apply_loop_first 1 T td (tree_map (cast_f32 lib td) params)
                             (tree_map (cast_f32 lib td) state)
                             rng (astype lib x0 td)) as [rest Hrest].
  exists rest. unfold prepend. cbn [trace fst]. rewrite Hrest.
  rewrite <- !app_assoc. reflexivity.
Qed.

(** When [init_fn] and both applications return, the verdict is that of
    the dtypes of the leaves of the two rounds. *)
Lemma assert_dtype_rounds (lib : Library) (env : Env) (td : DType)
      (module_fn : M Module) (shp : list nat)
      (params state y1 s1 y2 s2 : PyTree) :
  platform (first_device env) = "tpu" ->
  let rng := PRNGKey lib 42 in
  let T := transform_with_state lib (g lib module_fn) in
  let x0 := random_uniform lib rng shp in
  let params' := tree_map (cast_f32 lib td) params in
  let state' := tree_map (cast_f32 lib td) state in
  let x := astype lib x0 td in
  init_fn T rng x0 = inr (params, state) ->
  apply_fn T params' state' rng x = inr (y1, s1) ->
  apply_fn T params' s1 rng x = inr (y2, s2) ->
  let round1 := tree_leaves y1 ++ tree_leaves s1 in
  let round2 := tree_leaves y2 ++ tree_leaves s2 in
  let run := assert_dtype lib env td module_fn shp float32 in
  (forallb (leaf_ok td) (round1 ++ round2) = true ->
   run = ([EvLocalDevices; EvPRNGKey 42; EvTransform; EvUniform rng shp;
           EvInit rng x0]
            ++ casts_of td (tree_leaves params ++ tree_leaves state)
            ++ [EvAstype x0 td]
            ++ [EvApply params' state' rng x] ++ asserts_of td round1
            ++ [EvApply params' s1 rng x] ++ asserts_of td round2,
          inr tt)) /\
  (forallb (leaf_ok td) (round1 ++ round2) = false ->
   exists v,
     In v (round1 ++ round2) /\ dtype v <> int32 /\ dtype v <> td /\
     outcome run = inl (AssertionError (dtype v) td)).
Proof.
  intros Hp rng T x0 params' state' x Hinit H1 H2 round1 round2 run.
  subst run.
  rewrite (assert_dtype_run lib env td module_fn shp params state Hp Hinit).
  fold rng T x0 params' state' x.
  split.
  - intros Hall. rewrite forallb_app in Hall.
    apply andb_true_iff in Hall as [Hr1 Hr2].
    rewrite (apply_loop_two_ok T td params' state' y1 s1 y2 s2 rng x
                               H1 H2 Hr1).
    fold round1 round2. rewrite (forM_assert_ok td round2 Hr2).
    unfold prepend. cbn [trace outcome fst snd].
    rewrite <- ?app_assoc. reflexivity.
  - intros Hall. unfold prepend. cbn [outcome snd].
    destruct (forallb (leaf_ok td) round1) eqn:Hr1.
    + rewrite forallb_app, Hr1 in Hall. cbn [andb] in Hall.
      rewrite (apply_loop_two_ok T td params' state' y1 s1 y2 s2 rng x
                                 H1 H2 Hr1).
      fold round2.
      destruct (forM_assert_bad td round2 Hall)
        as (pre & v & post & Er & _ & Hv & Hf).
      apply leaf_ok_false in Hv as [Hv1 Hv2].
      exists v. rewrite Hf. unfold prepend. cbn [outcome snd].
      repeat split; auto.
      apply in_or_app. right. rewrite Er. apply in_elt.
    + rewrite (apply_loop_step 1 T td params' state' y1 s1 rng x H1).
      fold round1.
      destruct (forM_assert_bad td round1 Hr1)
        as (pre & v & post & Er & _ & Hv & Hf).
      apply leaf_ok_false in Hv as [Hv1 Hv2].
      exists v. rewrite Hf, bind_exn. unfold prepend. cbn [outcome snd].
      repeat split; auto.
      apply in_or_app. left. rewrite Er. apply in_elt.
Qed.

(** Every descriptor of the registry but Embed declares a float32
    input. *)
Lemma registry_float32 (d : ModuleDescriptor) :
  In d registry -> md_name d <> "Embed" -> md_dtype d = float32.
Proof.
  intros Hin. cbn in Hin.
  repeat (destruct Hin as [<- | Hin];
          [cbn; intros H; try reflexivity; exfalso; now apply H |]).
  destruct Hin.
Qed.

(** C10.  [test_bfloat16] is [assert_dtype] with the test dtype
    bfloat16, and a run of it is fixed by the library, the platform of
    the first device and the arguments:
    - every cast and every assertion of the run is about bfloat16, and
      the key given to the sampler, to [init_fn] and to every [apply_fn]
      is the key of seed 42;
    - a run that is not skipped starts by asking for the key of seed 42,
      transforms [g], samples the input of the declared shape under that
      key and initialises on the sample; it asks for no other key;
    - when [init_fn] returns, the run casts the float32 leaves of the
      parameters and of the state to bfloat16, then the sample, and
      applies the module to them under the same key;
    - when both applications return, the run passes exactly when every
      leaf of the two outputs and the two states is int32 or bfloat16,
      after the assertions on the leaves that are not int32, and fails
      otherwise with the assertion error that compares the dtype of such
      a leaf with bfloat16;
    - two environments with the same first platform give the same events
      and the same outcome;
    - on the TPU, the run on every descriptor of the registry but Embed
      starts in this way, with the shape that the descriptor declares. *)
Theorem test_bfloat16_fixed
        (lib : Library) (env : Env) (module_fn : M Module)
        (shp : list nat) (input_dtype : DType) :
  let run := test_bfloat16 lib env module_fn shp input_dtype in
  let key := PRNGKey lib 42 in
  let T := transform_with_state lib (g lib module_fn) in
  let x0 := random_uniform lib key shp in
  let x := astype lib x0 bfloat16 in
  run = assert_dtype lib env bfloat16 module_fn shp input_dtype /\
  all_events (bfloat16_event lib) run /\
  (platform (first_device env) = "tpu" -> input_dtype = float32 ->
   exists rest,
     trace run
     = [EvLocalDevices; EvPRNGKey 42; EvTransform; EvUniform key shp;
        EvInit key x0] ++ rest /\
     filter is_seed rest = []) /\
  (forall params state,
      platform (first_device env) = "tpu" -> input_dtype = float32 ->
      init_fn T key x0 = inr (params, state) ->
      exists rest,
        trace run
        = [EvLocalDevices; EvPRNGKey 42; EvTransform; EvUniform key shp;
           EvInit key x0]
            ++ casts_of bfloat16 (tree_leaves params ++ tree_leaves state)
            ++ [EvAstype x0 bfloat16;
                EvApply (tree_map (cast_f32 lib bfloat16) params)
                        (tree_map (cast_f32 lib bfloat16) state)
                        key x]
            ++ rest) /\
  (forall params state y1 s1 y2 s2,
      platform (first_device env) = "tpu" -> input_dtype = float32 ->
      init_fn T key x0 = inr (params, state) ->
      apply_fn T (tree_map (cast_f32 lib bfloat16) params)
               (tree_map (cast_f32 lib bfloat16) state) key x
      = inr (y1, s1) ->
      apply_fn T (tree_map (cast_f32 lib bfloat16) params) s1 key x
      = inr (y2, s2) ->
      let round1 := tree_leaves y1 ++ tree_leaves s1 in
      let round2 := tree_leaves y2 ++ tree_leaves s2 in
      (forallb (leaf_ok bfloat16) (round1 ++ round2) = true ->
       run = ([EvLocalDevices; EvPRNGKey 42; EvTransform; EvUniform key shp;
               EvInit key x0]
                ++ casts_of bfloat16 (tree_leaves params ++ tree_leaves state)
                ++ [EvAstype x0 bfloat16]
                ++ [EvApply (tree_map (cast_f32 lib bfloat16) params)
                            (tree_map (cast_f32 lib bfloat16) state) key x]
                ++ asserts_of bfloat16 round1
                ++ [EvApply (tree_map (cast_f32 lib bfloat16) params) s1
                            key x]
                ++ asserts_of bfloat16 round2,
              inr tt)) /\
      (forallb (leaf_ok bfloat16) (round1 ++ round2) = false ->
       exists v,
         In v (round1 ++ round2) /\
         dtype v <> int32 /\ dtype v <> bfloat16 /\
         outcome run = inl (AssertionError (dtype v) bfloat16))) /\
  (forall env',
      platform (first_device env') = platform (first_device env) ->
      test_bfloat16 lib env' module_fn shp input_dtype = run) /\
  Forall (fun d =>
            md_name d <> "Embed" ->
            platform (first_device env) = "tpu" ->
            exists rest,
              trace (run_descriptor lib env d)
              = [EvLocalDevices; EvPRNGKey 42; EvTransform;
                 EvUniform key (md_shape d);
                 EvInit key (random_uniform lib key (md_shape d))] ++ rest /\
              filter is_seed rest = [])
         registry.
Proof.
  intros run key T x0 x. subst run. unfold test_bfloat16.
  split; [reflexivity |].
  split; [apply (assert_dtype_events lib bfloat16); cbn; auto |].
  split.
  { intros Hp ->. now apply assert_dtype_setup. }
  split.
  { intros params state Hp -> Hinit.
    now apply assert_dtype_first_apply. }
  split.
  { intros params state y1 s1 y2 s2 Hp -> Hinit H1 H2.
    now apply assert_dtype_rounds. }
  split.
  { intros env' H. now apply assert_dtype_env. }
  apply Forall_forall. intros d Hin Hne Hp.
  unfold run_descriptor, test_bfloat16.
  rewrite (registry_float32 d Hin Hne).
  now apply assert_dtype_setup.
Qed.
